(** * devops-monitoring: the Flask service of [app/app.py]

    A shallow embedding of [app/app.py]: the [/rolldice] handler with its
    counter, spans and log calls, the [/proc/stat] sampler registered as the
    callback of the observable counter [system.cpu.time], and the
    configuration read from the environment.

    Python values are modelled as follows.
    - [str] is [string]; one Rocq character stands for one code point below
      256, which covers everything [/proc/stat] contains.
    - [int] is [Z]; [//] is [Z.div] (both round towards minus infinity).
    - a [dict] with string keys is a [gmap string _].
    - a raised exception is the left summand of [exn + A]. *)

From Stdlib Require Import ZArith Ascii String List Lia.
From stdpp Require Import base option list strings gmap pretty.

Local Open Scope string_scope.
Local Open Scope Z_scope.
Local Open Scope list_scope.

(** ** Exceptions *)

Inductive exn : Set :=
| OSError
| ValueError
| IndexError
| KeyError
| TypeError.

Global Instance exn_eq_dec : EqDecision exn.
Proof. solve_decision. Defined.

Definition raise {A} (e : exn) : exn + A := inl e.

Definition exn_bind {A B} (m : exn + A) (k : A -> exn + B) : exn + B :=
  match m with
  | inl e => inl e
  | inr a => k a
  end.

Notation "x <~ m ;; k" := (exn_bind m (fun x => k))
  (at level 100, m at next level, k at level 200, right associativity,
   format "'[v' x  <~  m  ;;  '/' k ']'").

Definition raises {A} (m : exn + A) : Prop := exists e, m = inl e.

(** ** The [str] methods the service uses *)

Module Py.

(** [str.isspace] on one character: [_Py_ascii_whitespace] for code points
    below 128, then NEL and NBSP, the only other white space below 256. *)
Definition isspace (c : ascii) : bool :=
  let n := N_of_ascii c in
  ((9 <=? n) && (n <=? 13) || (28 <=? n) && (n <=? 32)
   || (n =? 133) || (n =? 160))%N.

(** [line.startswith(prefix)] *)
Definition startswith (line pre : string) : bool := String.prefix pre line.

(** [str.split()] with no separator: maximal runs of non-space characters,
    in order.  [tok] holds the characters of the run being read, last one
    first. *)
Definition flush (tok : string) : list string :=
  match tok with
  | "" => []
  | String _ _ => [String.rev tok]
  end.

Fixpoint split_from (tok s : string) : list string :=
  match s with
  | "" => flush tok
  | String c s' =>
      if isspace c then flush tok ++ split_from "" s'
      else split_from (String c tok) s'
  end.

Definition split (s : string) : list string := split_from "" s.

(** The white space [int] skips around a numeral.  It is narrower than
    [str.isspace]: tab to carriage return and the blank, and NEL and NBSP,
    which [int] turns into blanks first; the separators 28 to 31 are not
    skipped. *)
Definition int_space (c : ascii) : bool :=
  let n := N_of_ascii c in
  ((9 <=? n) && (n <=? 13) || (n =? 32) || (n =? 133) || (n =? 160))%N.

Fixpoint int_lstrip (s : string) : string :=
  match s with
  | "" => ""
  | String c s' => if int_space c then int_lstrip s' else s
  end.

Definition int_strip (s : string) : string :=
  String.rev (int_lstrip (String.rev (int_lstrip s))).

(** Iterating a text file: the lines of [text], each with its line feed;
    a last line without one is a line too.  [text] is what the text layer
    delivers, line ends already translated to line feeds. *)
Definition LF : ascii := "010"%char.

Fixpoint lines_from (cur text : string) : list string :=
  match text with
  | "" => flush cur
  | String c text' =>
      if Ascii.eqb c LF then String.rev (String c cur) :: lines_from "" text'
      else lines_from (String c cur) text'
  end.

Definition readlines (text : string) : list string := lines_from "" text.

(** [f.readline()]: the next line and the rest of the file; the empty
    string at the end of the file. *)
Definition readline (f : list string) : string * list string :=
  match f with
  | [] => ("", [])
  | l :: f' => (l, f')
  end.

(** [xs[i]] on a list *)
Definition getitem {A} (xs : list A) (i : nat) : exn + A :=
  match xs !! i with
  | Some x => inr x
  | None => raise IndexError
  end.

(** [first, *rest = xs] *)
Definition unpack_star {A} (xs : list A) : exn + (A * list A) :=
  match xs with
  | [] => raise ValueError
  | x :: rest => inr (x, rest)
  end.

(** [str(n)] on an [int]; the integers of this program stay far below the
    length at which [str] refuses to convert. *)
Definition str (n : Z) : string := pretty n.

Section Int.
(** [sys.get_int_max_str_digits()]: [0] switches the limit off, CPython
    starts with 4300.  The interpreter fixes it when it starts, from
    [PYTHONINTMAXSTRDIGITS] or [-X int_max_str_digits]. *)
Variable int_max_str_digits : nat.

Definition digit (c : ascii) : option Z :=
  let n := N_of_ascii c in
  if ((48 <=? n) && (n <=? 57))%N then Some (Z.of_N n - 48) else None.

(** The digits of a decimal literal, underscores allowed between two
    digits only.  [sep] says that the previous character was not a
    digit; [n] counts the digits read. *)
Fixpoint digits (sep : bool) (acc : Z) (n : nat) (s : string)
  : option (Z * nat) :=
  match s with
  | "" => if sep then None else Some (acc, n)
  | String c s' =>
      if Ascii.eqb c "_"%char then
        if sep then None else digits true acc n s'
      else
        match digit c with
        | Some d => digits false (10 * acc + d) (S n) s'
        | None => None
        end
  end.

Definition too_long (n : nat) : bool :=
  (0 <? int_max_str_digits)%nat && (int_max_str_digits <? n)%nat.

Definition unsigned (s : string) : exn + Z :=
  match digits true 0 0%nat s with
  | Some (v, n) => if too_long n then raise ValueError else inr v
  | None => raise ValueError
  end.

(** [int(s)] on a [str], base 10 *)
Definition int (s : string) : exn + Z :=
  match int_strip s with
  | String "+" s' => unsigned s'
  | String "-" s' => v <~ unsigned s' ;; inr (- v)
  | s' => unsigned s'
  end.
End Int.

End Py.

(** ** Telemetry values *)

(** [opentelemetry.metrics.Observation(value, attributes)] *)
Record Observation : Type := mkObservation {
  value : Z;
  attributes : gmap string string
}.

Global Instance Observation_eq_dec : EqDecision Observation.
Proof. solve_decision. Defined.

(** [opentelemetry.metrics.CallbackOptions] *)
Record CallbackOptions : Set := { timeout_millis : Z }.

(** ** The process and what it can see *)

Inductive level : Set := DEBUG | INFO | ERROR.

(** What the code does to the telemetry providers and to the random number
    generator, in order. *)
Inductive event : Type :=
| Log (lvl : level) (msg : string)
| CounterAdd (instrument : string) (delta : Z)
| SpanStart (name : string)
| SpanEnd (name : string)
| SetAttribute (span : option string) (key : string) (v : Z)
| AddEvent (span : option string) (name : string)
| Randint (a b res : Z)
| CallbackFailed (instrument : string) (e : exn).

(** - [fs]: the files the process reads with [open], as they are when it
      reads them; [inl e] is a file whose opening or reading raises [e], a
      missing path raises [OSError];
    - [totals]: the running total of each counter, by instrument name;
    - [active]: the spans entered and not yet left, innermost first;
    - [tape]: what the next calls of [Random._randbelow] return;
    - [journal]: the events so far, oldest first. *)
Record world : Type := mkWorld {
  fs : gmap string (exn + string);
  totals : gmap string Z;
  active : list string;
  tape : list Z;
  journal : list event
}.

Definition set_totals (t : gmap string Z) (w : world) : world :=
  mkWorld (fs w) t (active w) (tape w) (journal w).
Definition set_active (a : list string) (w : world) : world :=
  mkWorld (fs w) (totals w) a (tape w) (journal w).
Definition set_tape (t : list Z) (w : world) : world :=
  mkWorld (fs w) (totals w) (active w) t (journal w).
Definition set_journal (j : list event) (w : world) : world :=
  mkWorld (fs w) (totals w) (active w) (tape w) j.

(** Code that runs in the process: a result and the world it leaves. *)
Definition M (A : Type) : Type := world -> A * world.

Definition ret {A} (a : A) : M A := fun w => (a, w).

Definition bind {A B} (m : M A) (k : A -> M B) : M B :=
  fun w => let '(a, w') := m w in k a w'.

Notation "x <- m ;; k" := (bind m (fun x => k))
  (at level 100, m at next level, k at level 200, right associativity,
   format "'[v' x  <-  m  ;;  '/' k ']'").
Notation "m ;;; k" := (bind m (fun _ => k))
  (at level 100, k at level 200, right associativity,
   format "'[v' m  ;;;  '/' k ']'").

Definition emit (e : event) : M unit :=
  fun w => (tt, set_journal (journal w ++ [e]) w).

(** [open(path)] in text mode, for reading: the lines to come. *)
Definition open (path : string) (w : world) : exn + list string :=
  match fs w !! path with
  | None => raise OSError
  | Some (inl e) => raise e
  | Some (inr text) => inr (Py.readlines text)
  end.

(** [logging.getLogger().info(msg)] and its siblings.  The call is
    journalled; the lines the handlers of [init_logs] then write to the
    console and append to [log/flask.log] are not part of the world. *)
Definition logging_debug (msg : string) : M unit := emit (Log DEBUG msg).
Definition logging_info (msg : string) : M unit := emit (Log INFO msg).
Definition logging_error (msg : string) : M unit := emit (Log ERROR msg).

(** [random.randint(a, b)] for [a <= b]: [a + _randbelow(b - a + 1)].  The
    value of [_randbelow] is the next one on the tape. *)
Definition randbelow (n : Z) : M Z :=
  fun w =>
    match tape w with
    | [] => (0, w)
    | k :: t => (k, set_tape t w)
    end.

Definition randint (a b : Z) : M Z :=
  k <- randbelow (b - a + 1) ;;
  let res := a + k in
  emit (Randint a b res) ;;;
  ret res.

(** [with tracer.start_as_current_span(name) as span: body] *)
Definition start_as_current_span {A} (name : string)
    (body : option string -> M A) : M A :=
  emit (SpanStart name) ;;;
  (fun w => (tt, set_active (name :: active w) w)) ;;;
  a <- body (Some name) ;;
  (fun w => (tt, set_active (tl (active w)) w)) ;;;
  emit (SpanEnd name) ;;;
  ret a.

(** [trace.get_current_span()] *)
Definition get_current_span : M (option string) :=
  fun w => (head (active w), w).

Definition set_attribute (span : option string) (key : string) (v : Z)
  : M unit := emit (SetAttribute span key v).

Definition add_event (span : option string) (name : string) : M unit :=
  emit (AddEvent span name).

(** [counter.add(delta)] on a counter of the metrics API: the call is
    journalled and [delta] joins the running total of the instrument, the
    one a scrape reports. *)
Definition counter_add (instrument : string) (delta : Z) : M unit :=
  emit (CounterAdd instrument delta) ;;;
  fun w =>
    (tt, set_totals
           (<[instrument := default 0 (totals w !! instrument) + delta]>
              (totals w)) w).

(** ** The handlers of [/rolldice] *)

(** What a view function returns: a body, or a body with a status. *)
Inductive view_rv : Set :=
| RvStr (body : string)
| RvTuple (body : string) (status : Z).

(** The status Flask answers with: 200 unless the view gives one. *)
Definition status_code (rv : view_rv) : Z :=
  match rv with
  | RvStr _ => 200
  | RvTuple _ status => status
  end.

Definition response_body (rv : view_rv) : string :=
  match rv with
  | RvStr body => body
  | RvTuple body _ => body
  end.

(** The counter [init_metrics] creates, by its instrument name. *)
Definition request_counter : string := "request_counter".

Definition do_roll : M Z :=
  logging_info "do_roll: Starting the function execution." ;;;
  start_as_current_span "do_roll" (fun span =>
    res <- randint 1 7 ;;
    logging_debug
      ("do_roll: Dice roll resulted in value " +:+ Py.str res +:+ ".") ;;;
    current_span <- get_current_span ;;
    set_attribute current_span "roll.value" res ;;;
    add_event current_span "Dice roll span event." ;;;
    logging_info "do_roll: Function execution completed." ;;;
    ret res).

Definition do_important_job : M unit :=
  logging_info "do_important_job: Starting an important job." ;;;
  start_as_current_span "do_important_job" (fun span =>
    result <- randint 1 10000 ;;
    set_attribute span "important_job.result" result ;;;
    add_event span
      ("Important job completed with result " +:+ Py.str result +:+ ".") ;;;
    logging_debug
      ("do_important_job: Important job result: " +:+ Py.str result +:+ ".")) ;;;
  logging_info "do_important_job: Function execution completed.".

Definition roll_dice : M view_rv :=
  logging_info "roll_dice: Received a request on /rolldice." ;;;
  counter_add request_counter 1 ;;;
  result <- do_roll ;;
  do_important_job ;;;
  if (result <? 0) || (result >? 6) then
    logging_error
      ("roll_dice: Invalid dice value received: " +:+ Py.str result +:+ "!") ;;;
    ret (RvTuple "Something went wrong!" 500)
  else
    logging_info
      ("roll_dice: Successfully completed with result: "
         +:+ Py.str result +:+ ".") ;;;
    ret (RvStr (Py.str result)).

(** ** The Metrics Provider *)

Definition callback : Type :=
  CallbackOptions -> world -> (exn + list Observation) * world.

(** [meter.create_counter(name, description, unit)] and
    [meter.create_observable_counter(name, callbacks, unit, description)] *)
Inductive instrument : Type :=
| Counter (name description unit : string)
| ObservableCounter (name : string) (callbacks : list callback)
    (unit description : string).

Definition instrument_name (i : instrument) : string :=
  match i with
  | Counter name _ _ => name
  | ObservableCounter name _ _ _ => name
  end.

(** One instrument of a scrape with its data points. *)
Record metric : Type := mkMetric {
  metric_name : string;
  points : list Observation
}.

(** Modelled from the spec: the callbacks of one observable counter at scrape
    time (section 4.2; the code of the provider is not part of [app/app.py]).
    Each is called once, in order; the first that fails fails the
    instrument. *)
Fixpoint run_callbacks (cbs : list callback) (options : CallbackOptions)
    : M (exn + list Observation) :=
  match cbs with
  | [] => ret (inr [])
  | cb :: cbs =>
      r <- cb options ;;
      match r with
      | inl e => ret (inl e)
      | inr obs =>
          r' <- run_callbacks cbs options ;;
          ret (more <~ r' ;; inr (obs ++ more))
      end
  end.

(** Modelled from the spec: [collect()] of the Metrics Provider (section 4.2;
    its code is not part of [app/app.py]).  It visits every registered
    instrument once, in registration order; a counter gives its running
    total, an observable counter every Observation its callback returns; an
    instrument whose callback fails is left out and the error is recorded;
    [collect] itself never raises. *)
Fixpoint collect (registry : list instrument) (options : CallbackOptions)
    : M (list metric) :=
  match registry with
  | [] => ret []
  | Counter name _ _ :: registry =>
      total <- (fun w => (default 0 (totals w !! name), w)) ;;
      out <- collect registry options ;;
      ret (mkMetric name [mkObservation total ∅] :: out)
  | ObservableCounter name cbs _ _ :: registry =>
      r <- run_callbacks cbs options ;;
      match r with
      | inl e =>
          emit (CallbackFailed name e) ;;;
          collect registry options
      | inr obs =>
          out <- collect registry options ;;
          ret (mkMetric name obs :: out)
      end
  end.

(** [flask.Response(body, mimetype=...)]; the body of a scrape is kept as the
    list of metrics the exposition text is written from. *)
Record Response : Type := mkResponse {
  body : list metric;
  mimetype : string;
  status : Z
}.

(** ** [cpu_time_callback], [init_metrics], [get_metrics] and the
       configuration *)

(** [os.environ.get(key, default)]: the default may be a [str] or an
    [int].  The environment is a map from names to values, both text of
    code points below 256. *)
Inductive str_or_int : Set :=
| OfStr (s : string)
| OfInt (n : Z).

Definition environ_get (environ : gmap string string) (key : string)
    (default : str_or_int) : str_or_int :=
  match environ !! key with
  | Some v => OfStr v
  | None => default
  end.

(** [os.environ.get(key, default)] with a [str] default *)
Definition environ_get_str (environ : gmap string string) (key : string)
    (default : string) : string :=
  match environ !! key with
  | Some v => v
  | None => default
  end.

(** The key [SERVICE_NAME] of the resource attributes *)
Definition SERVICE_NAME : string := "service.name".

(** The service name of a resource: the one it was given, or the name the
    SDK makes up when it was given none ([unknown_service], with the name
    of the executable when the SDK knows it). *)
Inductive ServiceName : Set :=
| Named (name : string)
| UnknownService.

Record Resource : Set := { service_name : ServiceName }.

(** [Resource.create(attributes)]: an empty service name counts as none. *)
Definition Resource_create (attributes : gmap string string) : Resource :=
  {| service_name :=
       match attributes !! SERVICE_NAME with
       | None => UnknownService
       | Some name =>
           if String.eqb name "" then UnknownService else Named name
       end |}.

(** What [init_traces] hands to [OTLPSpanExporter]. *)
Record TracerSetup : Set := {
  tracer_resource : Resource;
  endpoint : string
}.

(** How the last lines of the module end: the module was imported and the
    block is skipped, reading the settings raised, or [app.run(host=host,
    port=port)] is called. *)
Inductive outcome : Set :=
| Imported
| Raised (e : exn)
| AppRun (host : string) (port : Z).

Section App.
Variable int_max_str_digits : nat.

Abbreviation int := (Py.int int_max_str_digits).

(** The [for line in procstat] loop; [observations] is the list built so
    far. *)
Fixpoint cpu_time_loop (procstat : list string)
    (observations : list Observation) : exn + list Observation :=
  match procstat with
  | [] => inr observations
  | line :: procstat =>
      if negb (Py.startswith line "cpu") then inr observations
      else
        unpacked <~ Py.unpack_star (Py.split line) ;;
        let '(cpu, states) := unpacked in
        s0 <~ Py.getitem states 0 ;;
        t0 <~ int s0 ;;
        let observations := observations ++
          [mkObservation (t0 / 100) {[ "cpu" := cpu; "state" := "user" ]}] in
        s1 <~ Py.getitem states 1 ;;
        t1 <~ int s1 ;;
        let observations := observations ++
          [mkObservation (t1 / 100) {[ "cpu" := cpu; "state" := "system" ]}] in
        cpu_time_loop procstat observations
  end.

Definition cpu_time_callback : callback :=
  fun options w =>
    let observations := [] in
    (procstat <~ open "/proc/stat" w ;;
     let '(_, procstat) := Py.readline procstat in
     cpu_time_loop procstat observations,
     w).

(** [init_metrics(resource)]: the instruments in registration order. *)
Definition init_metrics (resource : Resource) : list instrument :=
  [ Counter "request_counter" "Number of requests" "1";
    ObservableCounter "system.cpu.time" [cpu_time_callback] "s" "CPU time" ].

(** [init_traces(resource)] *)
Definition init_traces (environ : gmap string string) (resource : Resource)
    : TracerSetup :=
  {| tracer_resource := resource;
     endpoint := environ_get_str environ "TRACE_ENDPOINT"
                   "http://localhost:4317" |}.

(** The module level: [resource = Resource.create({SERVICE_NAME: ...})];
    first the dictionary, then the resource. *)
Definition resource_attributes (environ : gmap string string)
    : gmap string string :=
  {[ SERVICE_NAME := environ_get_str environ "APP_SERVICE_NAME"
                       "my-python-service" ]}.

Definition resource (environ : gmap string string) : Resource :=
  Resource_create (resource_attributes environ).

(** [int(x)] on what [os.environ.get] returned *)
Definition int_of (x : str_or_int) : exn + Z :=
  match x with
  | OfStr s => int s
  | OfInt n => inr n
  end.

(** The block under [if __name__ == "__main__"], up to the call of
    [app.run]; what the server does once it is called is not modelled. *)
Definition main (name : string) (environ : gmap string string) : outcome :=
  if String.eqb name "__main__" then
    let host := environ_get_str environ "APP_HOST_NAME" "0.0.0.0" in
    match int_of (environ_get environ "APP_PORT" (OfInt 5000)) with
    | inl e => Raised e
    | inr port => AppRun host port
    end
  else Imported.

(** Modelled from the spec: [generate_latest()], which is not part of
    [app/app.py]; the scrape endpoint returns the output of [collect()] over
    the instruments registered by [init_metrics] (sections 4.2 and 6). *)
Definition generate_latest (environ : gmap string string)
    : M (list metric) :=
  collect (init_metrics (resource environ)) {| timeout_millis := 10000 |}.

(** [get_metrics()] *)
Definition get_metrics (environ : gmap string string) : M Response :=
  out <- generate_latest environ ;;
  ret (mkResponse out "text/plain" 200).
End App.

(** ** Logging: [init_logs] and the Log Correlator *)

Module Logging.

(** The attributes of a [LogRecord]: its [__dict__]. *)
Inductive attr : Set :=
| AStr (s : string)
| AInt (n : Z)
| ABool (b : bool).

Abbreviation record := (gmap string attr).

Definition levelname (lvl : level) : string :=
  match lvl with
  | DEBUG => "DEBUG"
  | INFO => "INFO"
  | ERROR => "ERROR"
  end.

(** [logging.LogRecord(name, level, pathname, lineno, msg, ...)], with the
    attributes the format of [init_logs] reads. *)
Definition LogRecord (name : string) (lvl : level) (filename : string)
    (lineno : Z) (msg : string) : record :=
  {[ "name" := AStr name;
     "levelname" := AStr (levelname lvl);
     "filename" := AStr filename;
     "lineno" := AInt lineno;
     "msg" := AStr msg ]}.

(** The conversions [%s] and [%d] of [fmt % mapping] *)
Definition conv_s (v : attr) : string :=
  match v with
  | AStr s => s
  | AInt n => Py.str n
  | ABool true => "True"
  | ABool false => "False"
  end.

Definition conv_d (v : attr) : exn + string :=
  match v with
  | AStr _ => raise TypeError
  | AInt n => inr (Py.str n)
  | ABool true => inr "1"
  | ABool false => inr "0"
  end.

Definition convert (c : ascii) (v : attr) : exn + string :=
  if Ascii.eqb c "s" then inr (conv_s v)
  else if Ascii.eqb c "d" then conv_d v
  else raise ValueError.

(** Where the scan of a format string stands: in plain text, after a [%],
    inside the parentheses of a key (its characters so far, last one
    first), or after the key, before the conversion character. *)
Inductive scan : Set :=
| Text
| Percent
| InKey (key : string)
| AfterKey (key : string).

(** [fmt % r] for the directives [%(key)s], [%(key)d] and [%%], which are
    the ones the format of [init_logs] uses.  A key that [r] lacks raises
    [KeyError]. *)
Fixpoint percent_from (st : scan) (fmt : string) (r : record)
    : exn + string :=
  match fmt with
  | "" =>
      match st with
      | Text => inr ""
      | _ => raise ValueError
      end
  | String c fmt' =>
      match st with
      | Text =>
          if Ascii.eqb c "%" then percent_from Percent fmt' r
          else
            rest <~ percent_from Text fmt' r ;;
            inr (String c rest)
      | Percent =>
          if Ascii.eqb c "%" then
            rest <~ percent_from Text fmt' r ;;
            inr (String "%" rest)
          else if Ascii.eqb c "(" then percent_from (InKey "") fmt' r
          else raise TypeError
      | InKey key =>
          if Ascii.eqb c ")" then percent_from (AfterKey (String.rev key)) fmt' r
          else percent_from (InKey (String c key)) fmt' r
      | AfterKey key =>
          match r !! key with
          | None => raise KeyError
          | Some v =>
              shown <~ convert c v ;;
              rest <~ percent_from Text fmt' r ;;
              inr (shown +:+ rest)
          end
      end
  end.

Definition percent (fmt : string) (r : record) : exn + string :=
  percent_from Text fmt r.

(** [Formatter.format(record)]: the message and the time are filled in,
    then the format is applied to the attributes; a [KeyError] of the
    format leaves the formatter as [ValueError]. *)
Definition Formatter_format (fmt asctime : string) (r : record)
    : exn + string :=
  match r !! "msg" with
  | None => raise KeyError
  | Some msg =>
      let r := <["message" := AStr (conv_s msg)]> r in
      let r := <["asctime" := AStr asctime]> r in
      match percent fmt r with
      | inl KeyError => raise ValueError
      | formatted => formatted
      end
  end.

(** The dictionary [init_logs] gives to [dictConfig]. *)
Record Handler : Set := {
  class : string;
  target : string;
  formatter : string
}.

Record Config : Type := {
  version : Z;
  formatters : gmap string string;
  handlers : gmap string Handler;
  root_level : level;
  root_handlers : list string
}.

Definition init_logs : Config :=
  {| version := 1;
     formatters := {[ "default" :=
       "%(asctime)s %(levelname)s [%(name)s] [%(filename)s:%(lineno)d] [trace_id=%(otelTraceID)s span_id=%(otelSpanID)s resource.service.name=%(otelServiceName)s trace_sampled=%(otelTraceSampled)s] - %(message)s" ]};
     handlers := {[
       "wsgi" := {| class := "logging.StreamHandler";
                    target := "ext://flask.logging.wsgi_errors_stream";
                    formatter := "default" |};
       "file" := {| class := "logging.FileHandler";
                    target := "log/flask.log";
                    formatter := "default" |} ]};
     root_level := INFO;
     root_handlers := ["wsgi"; "file"] |}.

(** The root logger hands a record to each of its handlers: the sink and
    the line written there, or the exception formatting raised. *)
Definition handle_one (cfg : Config) (asctime : string) (r : record)
    (h : string) : option (string * (exn + string)) :=
  match handlers cfg !! h with
  | None => None
  | Some hd =>
      match formatters cfg !! formatter hd with
      | None => None
      | Some fmt => Some (target hd, Formatter_format fmt asctime r)
      end
  end.

Definition handle (cfg : Config) (asctime : string) (r : record)
    : list (string * (exn + string)) :=
  omap (handle_one cfg asctime r) (root_handlers cfg).

(** The identity of a span that travels: section 3 of the spec. *)
Record SpanContext : Set := {
  trace_id : string;
  span_id : string;
  sampled : bool
}.

(** Modelled from the spec: the sentinel the Log Correlator (section 4.4)
    writes when no span is active; its code is in the logging
    instrumentation, not in [app/app.py].  The spec fixes that the
    identifiers are all zeros. *)
Definition absent : SpanContext :=
  {| trace_id := "0"; span_id := "0"; sampled := false |}.

(** Modelled from the spec: the Log Correlator (section 4.4), which is not
    part of [app/app.py].  Before a record is formatted it receives the
    trace id, the span id and the sampling flag of the current span
    context, or those of [absent] when no span is active, and the service
    name. *)
Definition correlate (current : option SpanContext) (service : string)
    (r : record) : record :=
  let ctx := default absent current in
  <["otelTraceID" := AStr (trace_id ctx)]>
    (<["otelSpanID" := AStr (span_id ctx)]>
       (<["otelServiceName" := AStr service]>
          (<["otelTraceSampled" := ABool (sampled ctx)]> r))).

(** An identifier made of zeros only. *)
Fixpoint zeros (s : string) : bool :=
  match s with
  | "" => true
  | String c s' => Ascii.eqb c "0" && zeros s'
  end.

Definition all_zero (s : string) : bool :=
  negb (String.eqb s "") && zeros s.

End Logging.

(** ** Sample inputs *)

Definition options0 : CallbackOptions := {| timeout_millis := 10000 |}.

(** A process whose [/proc/stat] reads [text]. *)
Definition world_of (text : string) : world :=
  mkWorld {[ "/proc/stat" := inr text ]} ∅ [] [] [].

(** A process that rolls: the next two values of [_randbelow] are [k1] and
    [k2]. *)
Definition world_rolling (k1 k2 : Z) : world :=
  mkWorld ∅ {[ "request_counter" := 41 ]} [] [k1; k2] [].

Definition stat_three_lines : string :=
  "cpu  100 200
cpu0 10 20
cpu1 30 40".

Definition stat_500_600 : string :=
  "cpu  500 600
cpu0 500 600
".

(** The per-cpu block ends at [intr]; a [cpu] line follows further down. *)
Definition stat_with_tail : string :=
  "cpu  74608 2520 24433 1117073 6176 4054 0 0 0 0
cpu0 37784 1260 12181 558006 3088 2025 0 0 0 0
intr 1462898
cpu9 1 2
ctxt 2177725
".

(** The row of [cpu1] lacks its second tick field. *)
Definition stat_short_row : string :=
  "cpu  100 200
cpu0 10 20
cpu1 30
".

Definition stat_twice_cpu0 : string :=
  "cpu  100 200
cpu0 10 20
cpu0 30 40
".

(** ** What the statements about the sampler speak of *)

(** A row of the per-cpu block as the sampler reads it: the first token, the
    numbers of the first two tick fields, and whatever fields follow. *)
Record row : Type := mkRow {
  row_cpu : string;
  row_user : Z;
  row_system : Z;
  row_extra : list string
}.

Definition observations_of_row (r : row) : list Observation :=
  [ mkObservation (row_user r / 100)
      {[ "cpu" := row_cpu r; "state" := "user" ]};
    mkObservation (row_system r / 100)
      {[ "cpu" := row_cpu r; "state" := "system" ]} ].

(** The lines the loop reaches: those before the first one that does not
    start with [cpu]. *)
Fixpoint matched (lines : list string) : list string :=
  match lines with
  | [] => []
  | line :: lines =>
      if Py.startswith line "cpu" then line :: matched lines else []
  end.

(** The lines of [/proc/stat] the loop reaches in [w]. *)
Definition matched_lines (w : world) : list string :=
  match open "/proc/stat" w with
  | inl _ => []
  | inr procstat => matched (snd (Py.readline procstat))
  end.

Definition first_token (line : string) : option string :=
  head (Py.split line).

(** Nothing is read after [rest] begins: it is empty or its first line does
    not start with [cpu]. *)
Definition stops (rest : list string) : Prop :=
  match rest with
  | [] => True
  | line :: _ => Py.startswith line "cpu" = false
  end.

Definition is_add (e : event) : bool :=
  match e with
  | CounterAdd _ _ => true
  | _ => false
  end.

Definition is_randint (e : event) : bool :=
  match e with
  | Randint _ _ _ => true
  | _ => false
  end.

(** The request counter as a scrape shows it. *)
Definition request_total (w : world) : metric :=
  mkMetric "request_counter"
    [mkObservation (default 0 (totals w !! "request_counter")) ∅].

(** The value the next call of [_randbelow] returns. *)
Definition next_draw (w : world) : Z :=
  match tape w with
  | [] => 0
  | k :: _ => k
  end.

(** ** What the statements about the handler speak of *)

(** The value the call number [i] of [_randbelow] returns, counting from
    zero: an exhausted tape gives 0. *)
Definition draw (i : nat) (w : world) : Z := nth i (tape w) 0.

(** The events a call of the handler adds to the journal. *)
Definition new_events {A} (m : M A) (w : world) : list event :=
  drop (length (journal w)) (journal (snd (m w))).

Definition is_span_boundary (e : event) : bool :=
  match e with
  | SpanStart _ | SpanEnd _ => true
  | _ => false
  end.

(** What is written on a span: attributes and events. *)
Definition is_span_write (e : event) : bool :=
  match e with
  | SetAttribute _ _ _ | AddEvent _ _ => true
  | _ => false
  end.

Definition is_error_log (e : event) : bool :=
  match e with
  | Log ERROR _ => true
  | _ => false
  end.

(** The spans of [events] open and close like brackets; [pending] holds the
    spans entered before, innermost first. *)
Fixpoint spans_nest (pending : list string) (events : list event) : bool :=
  match events with
  | [] =>
      match pending with
      | [] => true
      | _ :: _ => false
      end
  | SpanStart name :: events => spans_nest (name :: pending) events
  | SpanEnd name :: events =>
      match pending with
      | [] => false
      | top :: pending => String.eqb name top && spans_nest pending events
      end
  | _ :: events => spans_nest pending events
  end.

(** [n] requests to [/rolldice], one after the other: the answers. *)
Fixpoint serve (n : nat) : M (list view_rv) :=
  match n with
  | O => ret []
  | S n =>
      rv <- roll_dice ;;
      rest <- serve n ;;
      ret (rv :: rest)
  end.

Section Sampler.
Variable int_max_str_digits : nat.

Abbreviation cpu_loop := (cpu_time_loop int_max_str_digits).
Abbreviation sampler := (cpu_time_callback int_max_str_digits).

(** [line] starts with [cpu] and splits into the fields of [r], the first
    two tick fields being numerals [int] accepts. *)
Definition parses (line : string) (r : row) : Prop :=
  Py.startswith line "cpu" = true /\
  exists s0 s1,
    Py.split line = row_cpu r :: s0 :: s1 :: row_extra r /\
    Py.int int_max_str_digits s0 = inr (row_user r) /\
    Py.int int_max_str_digits s1 = inr (row_system r).

(** What makes the sampler fail: the source is missing, it cannot be
    opened or read, or a line the loop reaches has fewer than two tick
    fields. *)
Inductive sampler_failure (w : world) : Prop :=
| source_missing :
    fs w !! "/proc/stat" = None -> sampler_failure w
| source_unreadable e :
    fs w !! "/proc/stat" = Some (inl e) -> sampler_failure w
| row_malformed text first pre bad post :
    fs w !! "/proc/stat" = Some (inr text) ->
    Py.readlines text = first :: pre ++ bad :: post ->
    Forall (fun line => Py.startswith line "cpu" = true) pre ->
    Py.startswith bad "cpu" = true ->
    (length (Py.split bad) < 3)%nat ->
    sampler_failure w.

(** *** The loop, line by line *)

Lemma cpu_loop_nil acc : cpu_loop [] acc = inr acc.
Proof. reflexivity. Qed.

Lemma cpu_loop_break line procstat acc :
  Py.startswith line "cpu" = false ->
  cpu_loop (line :: procstat) acc = inr acc.
Proof. intros H. simpl. now rewrite H. Qed.

Lemma cpu_loop_row line procstat acc r :
  parses line r ->
  cpu_loop (line :: procstat) acc
  = cpu_loop procstat (acc ++ observations_of_row r).
Proof.
  intros [Hcpu (s0 & s1 & Hsplit & H0 & H1)].
  simpl. rewrite Hcpu, Hsplit. simpl.
  rewrite H0. simpl. rewrite H1. simpl.
  now rewrite <- app_assoc.
Qed.

Lemma cpu_loop_rows lines rows rest acc :
  Forall2 parses lines rows ->
  stops rest ->
  cpu_loop (lines ++ rest) acc
  = inr (acc ++ rows ≫= observations_of_row).
Proof.
  intros Hrows Hrest. revert acc.
  induction Hrows as [|line r lines rows Hr _ IH]; intros acc.
  - simpl. rewrite app_nil_r.
    destruct rest as [|l rest]; [reflexivity|].
    now apply cpu_loop_break.
  - change ((line :: lines) ++ rest) with (line :: (lines ++ rest)).
    rewrite (cpu_loop_row _ _ _ _ Hr), IH.
    now rewrite <- app_assoc.
Qed.

(** A run that returns has read well-formed rows only. *)
Lemma cpu_loop_inv lines acc obs :
  cpu_loop lines acc = inr obs ->
  exists rows,
    Forall2 parses (matched lines) rows /\
    obs = acc ++ rows ≫= observations_of_row.
Proof.
  revert acc. induction lines as [|line lines IH]; intros acc H.
  - exists []. split; [constructor|].
    simpl in H. injection H as <-. now rewrite app_nil_r.
  - simpl in H. simpl.
    destruct (Py.startswith line "cpu") eqn:Hcpu; simpl in H.
    2:{ exists []. split; [constructor|].
        injection H as <-. now rewrite app_nil_r. }
    destruct (Py.split line) as [|cpu states] eqn:Hsplit;
      simpl in H; [discriminate|].
    destruct states as [|s0 states]; simpl in H; [discriminate|].
    destruct (Py.int int_max_str_digits s0) as [|t0] eqn:H0;
      simpl in H; [discriminate|].
    destruct states as [|s1 extra]; simpl in H; [discriminate|].
    destruct (Py.int int_max_str_digits s1) as [|t1] eqn:H1;
      simpl in H; [discriminate|].
    apply IH in H as (rows & Hrows & ->).
    exists (mkRow cpu t0 t1 extra :: rows). split.
    + constructor; [|exact Hrows].
      split; [exact Hcpu|]. now exists s0, s1.
    + simpl. now rewrite <- !app_assoc.
Qed.

Lemma cpu_loop_prefix pre line post acc :
  Forall (fun l => Py.startswith l "cpu" = true) pre ->
  Py.startswith line "cpu" = false ->
  cpu_loop (pre ++ line :: post) acc = cpu_loop pre acc.
Proof.
  intros Hpre Hline. revert acc.
  induction Hpre as [|l pre Hl _ IH]; intros acc.
  - now apply cpu_loop_break.
  - simpl. rewrite Hl. simpl.
    destruct (Py.unpack_star (Py.split l)) as [|[cpu states]];
      simpl; [reflexivity|].
    destruct (Py.getitem states 0); simpl; [reflexivity|].
    destruct (Py.int int_max_str_digits s); simpl; [reflexivity|].
    destruct (Py.getitem states 1); simpl; [reflexivity|].
    destruct (Py.int int_max_str_digits s0); simpl; [reflexivity|].
    apply IH.
Qed.

Lemma cpu_loop_malformed pre bad post acc :
  Forall (fun l => Py.startswith l "cpu" = true) pre ->
  Py.startswith bad "cpu" = true ->
  (length (Py.split bad) < 3)%nat ->
  raises (cpu_loop (pre ++ bad :: post) acc).
Proof.
  intros Hpre Hbad Hlen. revert acc.
  induction Hpre as [|l pre Hl _ IH]; intros acc.
  - simpl. rewrite Hbad. simpl.
    destruct (Py.split bad) as [|cpu [|s0 [|s1 extra]]];
      simpl in *; try lia.
    + now exists ValueError.
    + now exists IndexError.
    + destruct (Py.int int_max_str_digits s0); simpl;
        [now eexists | now exists IndexError].
  - simpl. rewrite Hl. simpl.
    destruct (Py.unpack_star (Py.split l)) as [|[cpu states]];
      simpl; [now eexists|].
    destruct (Py.getitem states 0); simpl; [now eexists|].
    destruct (Py.int int_max_str_digits s); simpl; [now eexists|].
    destruct (Py.getitem states 1); simpl; [now eexists|].
    destruct (Py.int int_max_str_digits s0); simpl; [now eexists|].
    apply IH.
Qed.

Lemma cpu_loop_length lines acc obs :
  cpu_loop lines acc = inr obs ->
  length obs = (length acc + 2 * length (matched lines))%nat.
Proof.
  intros H. apply cpu_loop_inv in H as (rows & Hrows & ->).
  rewrite length_app, (Forall2_length _ _ _ Hrows). f_equal.
  clear Hrows. induction rows as [|r rows IH]; [reflexivity|].
  change ((r :: rows) ≫= observations_of_row)
    with (observations_of_row r ++ rows ≫= observations_of_row).
  rewrite length_app, IH. simpl. lia.
Qed.

Lemma matched_all pre rest :
  Forall (fun l => Py.startswith l "cpu" = true) pre ->
  stops rest ->
  matched (pre ++ rest) = pre.
Proof.
  intros Hpre Hrest. induction Hpre as [|l pre Hl _ IH]; simpl.
  - destruct rest as [|l rest]; [reflexivity|].
    simpl in *. now rewrite Hrest.
  - now rewrite Hl, IH.
Qed.

(** *** The callback on a readable source *)

Lemma sampler_readable options w text first lines :
  fs w !! "/proc/stat" = Some (inr text) ->
  Py.readlines text = first :: lines ->
  fst (sampler options w) = cpu_loop lines [].
Proof.
  intros Hfs Hlines. unfold cpu_time_callback, open. simpl.
  now rewrite Hfs, Hlines.
Qed.

Lemma sampler_world options w : snd (sampler options w) = w.
Proof. reflexivity. Qed.

Lemma sampler_source options w w' :
  fs w' !! "/proc/stat" = fs w !! "/proc/stat" ->
  fst (sampler options w') = fst (sampler options w).
Proof.
  intros H. unfold cpu_time_callback, open. simpl. now rewrite H.
Qed.
End Sampler.

(** ** The Python primitives on small inputs *)

Example split_row :
  Py.split "cpu0 10	20  30
" = ["cpu0"; "10"; "20"; "30"].
Proof. vm_compute. reflexivity. Qed.

Example split_blank : Py.split "
" = [].
Proof. reflexivity. Qed.

Example readlines_three :
  length (Py.readlines stat_three_lines) = 3%nat /\
  Py.readlines stat_three_lines !! 2%nat = Some "cpu1 30 40".
Proof. vm_compute. split; reflexivity. Qed.

Example int_literals :
  Py.int 4300 "0042" = inr 42 /\
  Py.int 4300 "-5" = inr (-5) /\
  Py.int 4300 "+1_000" = inr 1000 /\
  Py.int 4300 " 80 " = inr 80 /\
  Py.int 4300 "1__0" = inl ValueError /\
  Py.int 4300 "_1" = inl ValueError /\
  Py.int 4300 "1_" = inl ValueError /\
  Py.int 4300 "12a" = inl ValueError /\
  Py.int 4300 "" = inl ValueError /\
  Py.int 4300 "-" = inl ValueError /\
  Py.int 2 "123" = inl ValueError /\
  Py.int 0 "123" = inr 123.
Proof. vm_compute. repeat split. Qed.

Example str_of_int : Py.str 7 = "7" /\ Py.str (-120) = "-120" /\ Py.str 0 = "0".
Proof. vm_compute. repeat split. Qed.

(** [//] rounds down: below zero it does not truncate. *)
Example sampler_on_negative_field :
  fst (cpu_time_callback 4300 options0 (world_of "cpu
cpu0 -5 199
"))
  = inr [ mkObservation (-1) {[ "cpu" := "cpu0"; "state" := "user" ]};
          mkObservation 1 {[ "cpu" := "cpu0"; "state" := "system" ]} ].
Proof. vm_compute. reflexivity. Qed.

Example sampler_on_empty_source :
  fst (cpu_time_callback 4300 options0 (world_of "")) = inr [].
Proof. vm_compute. reflexivity. Qed.

Example sampler_on_missing_source :
  fst (cpu_time_callback 4300 options0 (world_rolling 0 0)) = inl OSError.
Proof. vm_compute. reflexivity. Qed.

Example sampler_on_short_row :
  fst (cpu_time_callback 4300 options0 (world_of stat_short_row))
  = inl IndexError.
Proof. vm_compute. reflexivity. Qed.

Example sampler_on_repeated_cpu :
  bool_decide (NoDup (first_token <$> matched_lines (world_of stat_twice_cpu0)))
  = false /\
  (attributes <$>
     default [] (match fst (cpu_time_callback 4300 options0
                              (world_of stat_twice_cpu0)) with
                 | inr obs => Some obs
                 | inl _ => None
                 end))
  = [ {[ "cpu" := "cpu0"; "state" := "user" ]};
      {[ "cpu" := "cpu0"; "state" := "system" ]};
      {[ "cpu" := "cpu0"; "state" := "user" ]};
      {[ "cpu" := "cpu0"; "state" := "system" ]} ].
Proof. vm_compute. split; reflexivity. Qed.

(** ** The sampler: what a scrape emits *)

Section SamplerClaims.
Variable int_max_str_digits : nat.

Abbreviation sampler' := (cpu_time_callback int_max_str_digits).

(** C1.  The first line of the source is skipped.  When the lines after it,
    up to the end or to the first line that does not start with [cpu],
    start with [cpu] and carry two numeric tick fields, the callback
    returns, for each of them in input order, first the Observation
    labelled (cpu, "user") whose value is the first tick count divided by
    100 with [//], then the Observation labelled (cpu, "system") whose
    value is the second tick count divided by 100.  On a tick count, which
    is not negative, [//] truncates: the value is the quotient rounded
    towards zero and the remainder, between 0 and 99, is dropped. *)
Theorem cpu_time_callback_emits options w text first lines rest rows :
  fs w !! "/proc/stat" = Some (inr text) ->
  Py.readlines text = first :: lines ++ rest ->
  Forall2 (parses int_max_str_digits) lines rows ->
  stops rest ->
  fst (sampler' options w)
  = inr (rows ≫= fun r =>
      [ mkObservation (row_user r / 100)
          {[ "cpu" := row_cpu r; "state" := "user" ]};
        mkObservation (row_system r / 100)
          {[ "cpu" := row_cpu r; "state" := "system" ]} ])
  /\ Forall (fun r =>
       (0 <= row_user r ->
        row_user r / 100 = row_user r ÷ 100 /\
        0 <= row_user r - 100 * (row_user r / 100) < 100) /\
       (0 <= row_system r ->
        row_system r / 100 = row_system r ÷ 100 /\
        0 <= row_system r - 100 * (row_system r / 100) < 100)) rows.
Proof.
  intros Hfs Hlines Hrows Hrest. split.
  - rewrite (sampler_readable _ _ _ _ _ _ Hfs Hlines).
    now rewrite (cpu_loop_rows _ _ _ _ _ Hrows Hrest).
  - apply Forall_forall. intros r _.
    split; intros Hpos; (split; [now rewrite Z.quot_div_nonneg by lia|]).
    + pose proof (Z.mod_pos_bound (row_user r) 100 ltac:(lia)).
      pose proof (Z.div_mod (row_user r) 100 ltac:(lia)). lia.
    + pose proof (Z.mod_pos_bound (row_system r) 100 ltac:(lia)).
      pose proof (Z.div_mod (row_system r) 100 ltac:(lia)). lia.
Qed.

(** C2.  After the first line, the scan ends at the first line that does
    not start with [cpu]: the callback returns what the loop makes of the
    lines before it, so a run that returns gives two Observations for each
    of those lines and none for the line it stopped at or for any line
    after it, whether such a line starts with [cpu] or not. *)
Theorem cpu_time_callback_stops options w text first pre line post :
  fs w !! "/proc/stat" = Some (inr text) ->
  Py.readlines text = first :: pre ++ line :: post ->
  Forall (fun l => Py.startswith l "cpu" = true) pre ->
  Py.startswith line "cpu" = false ->
  fst (sampler' options w) = cpu_time_loop int_max_str_digits pre []
  /\ forall obs, fst (sampler' options w) = inr obs ->
       length obs = (2 * length pre)%nat.
Proof.
  intros Hfs Hlines Hpre Hline.
  rewrite (sampler_readable _ _ _ _ _ _ Hfs Hlines).
  rewrite (cpu_loop_prefix _ _ _ _ _ Hpre Hline).
  split; [reflexivity|]. intros obs Hobs.
  apply cpu_loop_length in Hobs. rewrite Hobs.
  rewrite <- (app_nil_r pre) at 1.
  now rewrite (matched_all pre [] Hpre I).
Qed.

(** C4.  When the lines the loop reaches have pairwise distinct first
    tokens, the Observations one call returns have pairwise distinct
    label sets. *)
Theorem cpu_time_callback_labels_unique options w obs :
  fst (sampler' options w) = inr obs ->
  NoDup (first_token <$> matched_lines w) ->
  NoDup (attributes <$> obs).
Proof.
  unfold cpu_time_callback, matched_lines. simpl.
  destruct (open "/proc/stat" w) as [e|procstat]; simpl; [discriminate|].
  destruct (Py.readline procstat) as [skipped lines]. simpl.
  intros Hobs Hdistinct.
  apply cpu_loop_inv in Hobs as (rows & Hrows & ->). simpl.
  assert (first_token <$> matched lines = Some <$> (row_cpu <$> rows)) as E.
  { clear Hdistinct. induction Hrows as [|l r ls rs Hr _ IH]; [reflexivity|].
    simpl. f_equal; [|exact IH].
    destruct Hr as [_ (s0 & s1 & Hsplit & _)].
    unfold first_token. now rewrite Hsplit. }
  rewrite E in Hdistinct. apply NoDup_fmap in Hdistinct; [|apply _].
  clear E Hrows. induction rows as [|r rows IH]; [constructor|].
  apply NoDup_cons in Hdistinct as [Hfresh Hdistinct].
  change (attributes <$> ((r :: rows) ≫= observations_of_row))
    with ((attributes <$> observations_of_row r)
            ++ (attributes <$> (rows ≫= observations_of_row))).
  assert (forall state m,
    m ∈ attributes <$> (rows ≫= observations_of_row) ->
    m <> {[ "cpu" := row_cpu r; "state" := state ]}) as Hother.
  { intros state m Hm ->. apply Hfresh.
    apply list_elem_of_fmap in Hm as (o & Ho & Hin).
    apply list_elem_of_bind in Hin as (r' & Hin & Hr').
    apply list_elem_of_fmap. exists r'. split; [|exact Hr'].
    assert (attributes o !! "cpu" = Some (row_cpu r')) as Hcpu.
    { unfold observations_of_row in Hin.
      apply elem_of_cons in Hin as [->|Hin];
        [reflexivity|].
      apply list_elem_of_singleton in Hin as ->. reflexivity. }
    rewrite <- Ho in Hcpu.
    rewrite lookup_insert_eq in Hcpu. congruence. }
  simpl. constructor.
  - intros Hin. apply elem_of_cons in Hin as [Heq|Hin].
    + apply (f_equal (fun m : gmap string string => m !! "state")) in Heq.
      discriminate Heq.
    + now apply (Hother "user" _ Hin).
  - constructor; [|now apply IH].
    intros Hin. now apply (Hother "system" _ Hin).
Qed.

(** C10.  Each line the loop reaches gives two Observations, the user one
    and the system one, whatever follows its second tick field: the
    values come from the first two fields, the labels are (cpu, "user")
    and (cpu, "system"), and a source whose rows differ in the further
    fields only gives the same list. *)
Theorem cpu_time_callback_two_per_row options w text first lines rest rows :
  fs w !! "/proc/stat" = Some (inr text) ->
  Py.readlines text = first :: lines ++ rest ->
  Forall2 (parses int_max_str_digits) lines rows ->
  stops rest ->
  exists obs,
    fst (sampler' options w) = inr obs /\
    length obs = (2 * length rows)%nat /\
    value <$> obs
    = (rows ≫= fun r => [row_user r / 100; row_system r / 100]) /\
    attributes <$> obs
    = (rows ≫= fun r =>
         [ {[ "cpu" := row_cpu r; "state" := "user" ]};
           {[ "cpu" := row_cpu r; "state" := "system" ]} ]) /\
    forall w' text' first' lines' rest' rows',
      fs w' !! "/proc/stat" = Some (inr text') ->
      Py.readlines text' = first' :: lines' ++ rest' ->
      Forall2 (parses int_max_str_digits) lines' rows' ->
      stops rest' ->
      Forall2 (fun r r' =>
        row_cpu r = row_cpu r' /\ row_user r = row_user r' /\
        row_system r = row_system r') rows rows' ->
      fst (sampler' options w') = inr obs.
Proof.
  intros Hfs Hlines Hrows Hrest.
  exists (rows ≫= observations_of_row).
  assert (forall w text first lines rest rows,
    fs w !! "/proc/stat" = Some (inr text) ->
    Py.readlines text = first :: lines ++ rest ->
    Forall2 (parses int_max_str_digits) lines rows ->
    stops rest ->
    fst (sampler' options w) = inr (rows ≫= observations_of_row)) as run.
  { intros w1 text1 first1 lines1 rest1 rows1 H1 H2 H3 H4.
    rewrite (sampler_readable _ _ _ _ _ _ H1 H2).
    now rewrite (cpu_loop_rows _ _ _ _ _ H3 H4). }
  split; [now apply (run w text first lines rest)|].
  split; [|split; [|split]].
  - clear. induction rows as [|r rows IH]; [reflexivity|].
    change ((r :: rows) ≫= observations_of_row)
      with (observations_of_row r ++ rows ≫= observations_of_row).
    rewrite length_app, IH. simpl. lia.
  - clear. induction rows as [|r rows IH]; [reflexivity|].
    change ((r :: rows) ≫= observations_of_row)
      with (observations_of_row r ++ rows ≫= observations_of_row).
    rewrite fmap_app, IH. reflexivity.
  - clear. induction rows as [|r rows IH]; [reflexivity|].
    change ((r :: rows) ≫= observations_of_row)
      with (observations_of_row r ++ rows ≫= observations_of_row).
    rewrite fmap_app, IH. reflexivity.
  - intros w' text' first' lines' rest' rows' H1 H2 H3 H4 Hsame.
    rewrite (run w' text' first' lines' rest' rows' H1 H2 H3 H4).
    f_equal. clear -Hsame.
    induction Hsame as [|r r' rows rows' (Hc & Hu & Hs) _ IH];
      [reflexivity|].
    change ((r :: rows) ≫= observations_of_row)
      with (observations_of_row r ++ rows ≫= observations_of_row).
    change ((r' :: rows') ≫= observations_of_row)
      with (observations_of_row r' ++ rows' ≫= observations_of_row).
    rewrite IH. unfold observations_of_row. now rewrite Hc, Hu, Hs.
Qed.

(** *** Scrapes *)

Lemma generate_latest_eq environ w :
  generate_latest int_max_str_digits environ w
  = match fst (sampler' options0 w) with
    | inl e =>
        ([request_total w],
         set_journal (journal w ++ [CallbackFailed "system.cpu.time" e]) w)
    | inr obs =>
        ([request_total w; mkMetric "system.cpu.time" obs], w)
    end.
Proof.
  unfold generate_latest, init_metrics, collect, run_callbacks, bind, ret,
    cpu_time_callback, emit, request_total, options0.
  simpl.
  destruct (open "/proc/stat" w) as [e|procstat]; simpl; [reflexivity|].
  destruct (Py.readline procstat) as [skipped lines].
  destruct (cpu_time_loop int_max_str_digits lines []) as [e|obs];
    simpl; [reflexivity|].
  now rewrite app_nil_r.
Qed.

Lemma sampler_failure_raises options w :
  sampler_failure w ->
  raises (fst (sampler' options w)).
Proof.
  intros [Hfs|e Hfs|text first pre bad post Hfs Hlines Hpre Hbad Hlen].
  - exists OSError. unfold cpu_time_callback, open. simpl. now rewrite Hfs.
  - exists e. unfold cpu_time_callback, open. simpl. now rewrite Hfs.
  - rewrite (sampler_readable _ _ _ _ _ _ Hfs Hlines).
    now apply cpu_loop_malformed.
Qed.

(** C3.  When the sampler fails in a scrape, because [/proc/stat] is
    missing or cannot be read, or because a row the loop reaches lacks a
    tick field, the callback raises and only [system.cpu.time] is lost:
    [get_metrics] answers 200, the body holds the request counter with its
    running total and nothing else, the totals are untouched and the
    failure is recorded. *)
Theorem sampler_failure_contained environ options w :
  sampler_failure w ->
  exists e,
    fst (sampler' options w) = inl e /\
    let '(response, w') := get_metrics int_max_str_digits environ w in
    status response = 200 /\
    body response
    = [ mkMetric "request_counter"
          [mkObservation (default 0 (totals w !! "request_counter")) ∅] ] /\
    Forall (fun m => metric_name m <> "system.cpu.time") (body response) /\
    totals w' = totals w /\
    journal w' = journal w ++ [CallbackFailed "system.cpu.time" e].
Proof.
  intros Hfail.
  destruct (sampler_failure_raises options w Hfail) as [e He].
  exists e. split; [exact He|].
  unfold get_metrics, bind, ret.
  rewrite generate_latest_eq.
  assert (fst (sampler' options0 w) = inl e) as ->
    by (rewrite <- He; reflexivity).
  simpl. repeat split.
  constructor; [|constructor]. simpl. discriminate.
Qed.

(** C7.  A scrape is a function of the source and of the counters: two
    processes that agree on [/proc/stat] get equal results from the
    callback and, when their totals agree too, equal scrape bodies; in
    particular the callback evaluated twice in a row, and [get_metrics]
    called twice in a row, give the same list twice. *)
Theorem scrape_deterministic environ options w w' :
  fs w' !! "/proc/stat" = fs w !! "/proc/stat" ->
  totals w' = totals w ->
  fst (sampler' options w') = fst (sampler' options w) /\
  body (fst (get_metrics int_max_str_digits environ w'))
  = body (fst (get_metrics int_max_str_digits environ w)) /\
  (let '(r1, w1) := sampler' options w in
   let '(r2, w2) := sampler' options w1 in
   r1 = r2 /\ w2 = w) /\
  (let '(response1, w1) := get_metrics int_max_str_digits environ w in
   let '(response2, w2) := get_metrics int_max_str_digits environ w1 in
   response1 = response2).
Proof.
  intros Hfs Htotals.
  assert (forall v v',
    fs v' !! "/proc/stat" = fs v !! "/proc/stat" ->
    totals v' = totals v ->
    fst (get_metrics int_max_str_digits environ v')
    = fst (get_metrics int_max_str_digits environ v)) as same.
  { intros v v' H1 H2. unfold get_metrics, bind, ret.
    rewrite !generate_latest_eq.
    rewrite (sampler_source _ options0 v v' H1).
    unfold request_total. rewrite H2.
    now destruct (fst (sampler' options0 v)). }
  split; [now apply sampler_source|].
  split; [now rewrite (same w w')|].
  split; [now split|].
  pose proof (same w (snd (get_metrics int_max_str_digits environ w))) as H.
  destruct (get_metrics int_max_str_digits environ w) as [response1 w1] eqn:E1.
  destruct (get_metrics int_max_str_digits environ w1) as [response2 w2] eqn:E2.
  simpl in H. rewrite E2 in H. simpl in H. symmetry. apply H.
  - unfold get_metrics, bind, ret in E1. rewrite generate_latest_eq in E1.
    destruct (fst (sampler' options0 w)); injection E1 as <- <-; reflexivity.
  - unfold get_metrics, bind, ret in E1. rewrite generate_latest_eq in E1.
    destruct (fst (sampler' options0 w)); injection E1 as <- <-; reflexivity.
Qed.
End SamplerClaims.

(** *** On the sample inputs *)

Lemma cpu_time_callback_emits_witness :
  fst (cpu_time_callback 4300 options0 (world_of stat_three_lines))
  = inr [ mkObservation 0 {[ "cpu" := "cpu0"; "state" := "user" ]};
          mkObservation 0 {[ "cpu" := "cpu0"; "state" := "system" ]};
          mkObservation 0 {[ "cpu" := "cpu1"; "state" := "user" ]};
          mkObservation 0 {[ "cpu" := "cpu1"; "state" := "system" ]} ]
  /\ fst (cpu_time_callback 4300 options0 (world_of stat_500_600))
  = inr [ mkObservation 5 {[ "cpu" := "cpu0"; "state" := "user" ]};
          mkObservation 6 {[ "cpu" := "cpu0"; "state" := "system" ]} ].
Proof.
  split.
  - refine (eq_trans (proj1 (cpu_time_callback_emits 4300 options0
      (world_of stat_three_lines) stat_three_lines
      (hd "" (Py.readlines stat_three_lines))
      (tl (Py.readlines stat_three_lines)) []
      [mkRow "cpu0" 10 20 []; mkRow "cpu1" 30 40 []] _ _ _ I)) _).
    + vm_compute; reflexivity.
    + vm_compute; reflexivity.
    + repeat (first [ apply Forall2_nil_2 | apply Forall2_cons_2 ]);
        (split; [ vm_compute; reflexivity | ]);
        [ exists "10", "20" | exists "30", "40" ];
        repeat split; vm_compute; reflexivity.
    + vm_compute; reflexivity.
  - refine (eq_trans (proj1 (cpu_time_callback_emits 4300 options0
      (world_of stat_500_600) stat_500_600
      (hd "" (Py.readlines stat_500_600))
      (tl (Py.readlines stat_500_600)) []
      [mkRow "cpu0" 500 600 []] _ _ _ I)) _).
    + vm_compute; reflexivity.
    + vm_compute; reflexivity.
    + apply Forall2_cons_2; [ | apply Forall2_nil_2 ].
      split; [ vm_compute; reflexivity | ].
      exists "500", "600". repeat split; vm_compute; reflexivity.
    + vm_compute; reflexivity.
Defined.

Lemma cpu_time_callback_stops_witness :
  fst (cpu_time_callback 4300 options0 (world_of stat_with_tail))
  = inr [ mkObservation 377 {[ "cpu" := "cpu0"; "state" := "user" ]};
          mkObservation 12 {[ "cpu" := "cpu0"; "state" := "system" ]} ].
Proof.
  refine (eq_trans (proj1 (cpu_time_callback_stops 4300 options0
    (world_of stat_with_tail) stat_with_tail
    (hd "" (Py.readlines stat_with_tail))
    (take 1 (tl (Py.readlines stat_with_tail)))
    (default "" (Py.readlines stat_with_tail !! 2%nat))
    (drop 3 (Py.readlines stat_with_tail)) _ _ _ _)) _).
  - vm_compute; reflexivity.
  - vm_compute; reflexivity.
  - vm_compute. repeat constructor.
  - vm_compute; reflexivity.
  - vm_compute; reflexivity.
Defined.

Lemma cpu_time_callback_labels_unique_witness :
  NoDup (attributes <$>
    [ mkObservation 0 {[ "cpu" := "cpu0"; "state" := "user" ]};
      mkObservation 0 {[ "cpu" := "cpu0"; "state" := "system" ]};
      mkObservation 0 {[ "cpu" := "cpu1"; "state" := "user" ]};
      mkObservation 0 {[ "cpu" := "cpu1"; "state" := "system" ]} ]).
Proof.
  refine (cpu_time_callback_labels_unique 4300 options0
    (world_of stat_three_lines) _ _ _).
  - vm_compute; reflexivity.
  - apply (NoDup_ListNoDup
      (first_token <$> matched_lines (world_of stat_three_lines))).
    vm_compute. repeat constructor; simpl; intuition discriminate.
Defined.

Lemma cpu_time_callback_two_per_row_witness :
  exists obs,
    fst (cpu_time_callback 4300 options0 (world_of stat_with_tail)) = inr obs /\
    length obs = 2%nat /\
    value <$> obs = [377; 12].
Proof.
  destruct (cpu_time_callback_two_per_row 4300 options0
    (world_of stat_with_tail) stat_with_tail
    (hd "" (Py.readlines stat_with_tail))
    (take 1 (tl (Py.readlines stat_with_tail)))
    (drop 2 (Py.readlines stat_with_tail))
    [mkRow "cpu0" 37784 1260
       ["12181"; "558006"; "3088"; "2025"; "0"; "0"; "0"; "0"]])
    as (obs & Hrun & Hlen & Hvalues & _).
  - vm_compute; reflexivity.
  - vm_compute; reflexivity.
  - apply Forall2_cons_2; [ | apply Forall2_nil_2 ].
    split; [ vm_compute; reflexivity | ].
    exists "37784", "1260". repeat split; vm_compute; reflexivity.
  - vm_compute; reflexivity.
  - exists obs. split; [exact Hrun|]. split; [exact Hlen|].
    rewrite Hvalues. vm_compute; reflexivity.
Defined.

Lemma sampler_failure_contained_witness :
  exists e,
    fst (cpu_time_callback 4300 options0 (world_of stat_short_row)) = inl e /\
    let '(response, w') := get_metrics 4300 ∅ (world_of stat_short_row) in
    status response = 200 /\
    body response
    = [ mkMetric "request_counter"
          [mkObservation
             (default 0 (totals (world_of stat_short_row) !! "request_counter"))
             ∅] ] /\
    Forall (fun m => metric_name m <> "system.cpu.time") (body response) /\
    totals w' = totals (world_of stat_short_row) /\
    journal w'
    = journal (world_of stat_short_row) ++ [CallbackFailed "system.cpu.time" e].
Proof.
  apply (sampler_failure_contained 4300 ∅ options0 (world_of stat_short_row)).
  apply (row_malformed _ stat_short_row
    (hd "" (Py.readlines stat_short_row))
    (take 1 (tl (Py.readlines stat_short_row)))
    (default "" (Py.readlines stat_short_row !! 2%nat))
    []).
  - vm_compute; reflexivity.
  - vm_compute; reflexivity.
  - vm_compute. repeat constructor.
  - vm_compute; reflexivity.
  - vm_compute. lia.
Defined.

Lemma scrape_deterministic_witness :
  fst (cpu_time_callback 4300 options0
         (set_tape [3] (world_of stat_three_lines)))
  = fst (cpu_time_callback 4300 options0 (world_of stat_three_lines)) /\
  body (fst (get_metrics 4300 ∅ (set_tape [3] (world_of stat_three_lines))))
  = body (fst (get_metrics 4300 ∅ (world_of stat_three_lines))).
Proof.
  destruct (scrape_deterministic 4300 ∅ options0
    (world_of stat_three_lines) (set_tape [3] (world_of stat_three_lines)))
    as (H1 & H2 & _).
  - vm_compute; reflexivity.
  - vm_compute; reflexivity.
  - split; assumption.
Defined.

(** ** The handler of [/rolldice] *)

Lemma roll_dice_run w :
  roll_dice w
  = let result := 1 + next_draw w in
    let w1 := snd (do_important_job (snd (do_roll
                (snd (counter_add request_counter 1
                   (snd (logging_info
                      "roll_dice: Received a request on /rolldice." w))))))) in
    if (result <? 0) || (result >? 6) then
      (RvTuple "Something went wrong!" 500,
       snd (logging_error
         ("roll_dice: Invalid dice value received: "
            +:+ Py.str result +:+ "!") w1))
    else
      (RvStr (Py.str result),
       snd (logging_info
         ("roll_dice: Successfully completed with result: "
            +:+ Py.str result +:+ ".") w1)).
Proof.
  destruct w as [f t a [|k1 [|k2 tp]] j];
    cbv [roll_dice do_roll do_important_job bind ret logging_info
         logging_debug logging_error counter_add emit randint randbelow
         start_as_current_span get_current_span set_attribute add_event
         set_journal set_totals set_active set_tape next_draw
         fst snd fs totals active tape journal];
    match goal with
    | |- context [(?r <? 0) || (?r >? 6)] =>
        destruct ((r <? 0) || (r >? 6)); reflexivity
    end.
Qed.

Ltac run_handler :=
  cbv [roll_dice do_roll do_important_job bind ret logging_info
       logging_debug logging_error counter_add emit randint randbelow
       start_as_current_span get_current_span set_attribute add_event
       set_journal set_totals set_active set_tape next_draw
       fst snd fs totals active tape journal].

Lemma do_roll_result w : fst (do_roll w) = 1 + next_draw w.
Proof. destruct w as [f t a [|k tp] j]; reflexivity. Qed.

Lemma roll_dice_result w :
  fst (roll_dice w)
  = let result := 1 + next_draw w in
    if (result <? 0) || (result >? 6)
    then RvTuple "Something went wrong!" 500
    else RvStr (Py.str result).
Proof. rewrite roll_dice_run. cbv zeta. now destruct (_ || _). Qed.

Lemma roll_dice_journal w :
  exists after,
    journal (snd (roll_dice w))
    = journal w
      ++ [Log INFO "roll_dice: Received a request on /rolldice."]
      ++ CounterAdd "request_counter" 1
      :: Log INFO "do_roll: Starting the function execution."
      :: SpanStart "do_roll"
      :: Randint 1 7 (1 + next_draw w)
      :: after /\
    forallb (fun e => negb (is_add e)) after = true.
Proof.
  destruct w as [f t a [|k1 [|k2 tp]] j]; run_handler;
    match goal with
    | |- context [(?r <? 0) || (?r >? 6)] => destruct ((r <? 0) || (r >? 6))
    end;
    rewrite <- !app_assoc; cbn [app];
    (eexists; split; [reflexivity|reflexivity]).
Qed.

Lemma roll_dice_totals w :
  totals (snd (roll_dice w))
  = <["request_counter" := default 0 (totals w !! "request_counter") + 1]>
      (totals w).
Proof.
  destruct w as [f t a [|k1 [|k2 tp]] j]; run_handler;
    match goal with
    | |- context [(?r <? 0) || (?r >? 6)] => destruct ((r <? 0) || (r >? 6))
    end; reflexivity.
Qed.

Lemma no_add_filter (events : list event) :
  forallb (fun e => negb (is_add e)) events = true ->
  List.filter is_add events = [].
Proof.
  induction events as [|e events IH]; [reflexivity|]. simpl.
  intros [He Hrest]%andb_true_iff.
  destruct (is_add e); [discriminate|]. now apply IH.
Qed.

(** C5.  The dice result is [1 + k] for the value [k] that [_randbelow(7)]
    returns, so it lies between 1 and 7, and the seven equally likely values
    of [k] give 1, 2, ..., 7, each once.  The handler answers 500 exactly
    when the result is outside 1..6; otherwise it answers 200 with the
    result written in decimal as the body. *)
Theorem roll_dice_status w k draws :
  tape w = k :: draws ->
  0 <= k < 7 ->
  let result := fst (do_roll w) in
  result = 1 + k /\
  1 <= result <= 7 /\
  (fun k' => fst (do_roll (set_tape (k' :: draws) w))) <$> seqZ 0 7
  = seqZ 1 7 /\
  In (Randint 1 7 result) (journal (snd (roll_dice w))) /\
  (status_code (fst (roll_dice w)) = 500 <-> ~ (1 <= result <= 6)) /\
  (1 <= result <= 6 ->
   fst (roll_dice w) = RvStr (Py.str result) /\
   status_code (fst (roll_dice w)) = 200).
Proof.
  intros Htape Hk. cbv zeta.
  rewrite do_roll_result, roll_dice_result.
  assert (next_draw w = k) as -> by (unfold next_draw; now rewrite Htape).
  split; [reflexivity|]. split; [lia|]. split; [reflexivity|]. split.
  { destruct (roll_dice_journal w) as (after & -> & _).
    assert (next_draw w = k) as -> by (unfold next_draw; now rewrite Htape).
    apply in_or_app. right. apply in_or_app. right. simpl. tauto. }
  cbv zeta.
  destruct ((1 + k <? 0) || (1 + k >? 6)) eqn:Hcheck; simpl.
  - split; [split; [intros _|reflexivity]|].
    + apply orb_true_iff in Hcheck as [H|H].
      * apply Z.ltb_lt in H. lia.
      * rewrite Z.gtb_ltb in H. apply Z.ltb_lt in H. lia.
    + intros Hin. apply orb_true_iff in Hcheck as [H|H].
      * apply Z.ltb_lt in H. lia.
      * rewrite Z.gtb_ltb in H. apply Z.ltb_lt in H. lia.
  - apply orb_false_iff in Hcheck as [H1 H2].
    apply Z.ltb_ge in H1. rewrite Z.gtb_ltb in H2. apply Z.ltb_ge in H2.
    split; [split; [discriminate|lia]|]. intros _. now split.
Qed.

Lemma roll_dice_status_witness :
  status_code (fst (roll_dice (world_rolling 6 41))) = 500 /\
  fst (roll_dice (world_rolling 2 41)) = RvStr "3" /\
  status_code (fst (roll_dice (world_rolling 2 41))) = 200.
Proof.
  destruct (roll_dice_status (world_rolling 6 41) 6 [41] eq_refl)
    as (_ & _ & _ & _ & H500 & _); [lia|].
  destruct (roll_dice_status (world_rolling 2 41) 2 [41] eq_refl)
    as (_ & _ & _ & _ & _ & H200); [lia|].
  split.
  - apply H500. vm_compute. intros [_ H]. apply H. reflexivity.
  - apply H200. vm_compute. split; discriminate.
Defined.

(** C6.  One call of the handler makes one call [request_counter.add(1)],
    whatever the dice give and whatever the answer: the journal grows by the
    first log line, then the add, then events among which there is no other
    add; the roll comes after the add; and the running total of the counter
    is one more than before. *)
Theorem roll_dice_counts_once w :
  exists before after,
    journal (snd (roll_dice w))
    = journal w ++ before ++ CounterAdd "request_counter" 1 :: after /\
    forallb (fun e => negb (is_add e) && negb (is_randint e)) before = true /\
    forallb (fun e => negb (is_add e)) after = true /\
    existsb is_randint after = true /\
    length (List.filter is_add
              (drop (length (journal w)) (journal (snd (roll_dice w)))))
    = 1%nat /\
    totals (snd (roll_dice w)) !! "request_counter"
    = Some (default 0 (totals w !! "request_counter") + 1).
Proof.
  destruct (roll_dice_journal w) as (after & Hj & Hafter).
  eexists [_], _. split; [exact Hj|].
  split; [reflexivity|]. split; [exact Hafter|]. split; [reflexivity|].
  split.
  - rewrite Hj, drop_app_length. cbn [app List.filter is_add length].
    now rewrite (no_add_filter after Hafter).
  - rewrite roll_dice_totals. apply lookup_insert_eq.
Qed.

Example roll_dice_seven :
  let '(rv, w') := roll_dice (world_rolling 6 41) in
  rv = RvTuple "Something went wrong!" 500 /\
  List.filter is_add (journal w') = [CounterAdd "request_counter" 1] /\
  totals w' !! "request_counter" = Some 42.
Proof. vm_compute. repeat split. Qed.

(** ** The configuration *)

(** C8, as stated, fails on the endpoint: with [TRACE_ENDPOINT] unset the
    exporter is given the URL [http://localhost:4317], not
    [localhost:4317]. *)
Lemma configuration_defaults_counterexample :
  (∅ : gmap string string) !! "TRACE_ENDPOINT" = None /\
  endpoint (init_traces ∅ (resource ∅)) = "http://localhost:4317" /\
  endpoint (init_traces ∅ (resource ∅)) <> "localhost:4317".
Proof.
  split; [reflexivity|]. split; [reflexivity|].
  vm_compute. discriminate.
Qed.

(** C8, amended.  Each setting is read from its environment variable, and
    is its default when the variable is unset: the service name from
    [APP_SERVICE_NAME], default [my-python-service]; the endpoint of the
    trace collector from [TRACE_ENDPOINT], default the URL
    [http://localhost:4317]; and, when the module runs as the main program,
    the host from [APP_HOST_NAME], default [0.0.0.0], and the port from
    [APP_PORT] through [int], default 5000.  The service name goes to
    [Resource.create] as it was read, and names the resource unless it is
    empty. *)
Theorem configuration_defaults int_max_str_digits
    (environ : gmap string string) :
  (environ !! "APP_SERVICE_NAME" = None ->
   resource_attributes environ !! SERVICE_NAME = Some "my-python-service" /\
   service_name (resource environ) = Named "my-python-service") /\
  (forall v, environ !! "APP_SERVICE_NAME" = Some v ->
   resource_attributes environ !! SERVICE_NAME = Some v /\
   (v <> "" -> service_name (resource environ) = Named v)) /\
  (environ !! "TRACE_ENDPOINT" = None ->
   endpoint (init_traces environ (resource environ))
   = "http://localhost:4317") /\
  (forall v, environ !! "TRACE_ENDPOINT" = Some v ->
   endpoint (init_traces environ (resource environ)) = v) /\
  exists host port,
    main int_max_str_digits "__main__" environ
    = match port with
      | inl e => Raised e
      | inr p => AppRun host p
      end /\
    (environ !! "APP_HOST_NAME" = None -> host = "0.0.0.0") /\
    (forall v, environ !! "APP_HOST_NAME" = Some v -> host = v) /\
    (environ !! "APP_PORT" = None -> port = inr 5000) /\
    (forall v, environ !! "APP_PORT" = Some v ->
     port = Py.int int_max_str_digits v).
Proof.
  unfold resource, resource_attributes, Resource_create, init_traces, main,
    environ_get_str, environ_get, int_of.
  rewrite lookup_singleton_eq. cbn [service_name endpoint String.eqb].
  split; [|split; [|split; [|split]]].
  - intros ->. split; reflexivity.
  - intros v ->. split; [reflexivity|]. intros Hv.
    destruct (String.eqb v "") eqn:E; [|reflexivity].
    apply String.eqb_eq in E. contradiction.
  - now intros ->.
  - now intros v ->.
  - exists (default "0.0.0.0" (environ !! "APP_HOST_NAME")),
      (match environ !! "APP_PORT" with
       | Some v => Py.int int_max_str_digits v
       | None => inr 5000
       end).
    destruct (environ !! "APP_HOST_NAME") as [h|] eqn:Hh;
      destruct (environ !! "APP_PORT") as [p|] eqn:Hp;
      (split; [reflexivity|]); repeat split; simpl; congruence.
Qed.

Lemma configuration_defaults_witness :
  service_name (resource ∅) = Named "my-python-service" /\
  service_name (resource {[ "APP_SERVICE_NAME" := "dice" ]}) = Named "dice" /\
  endpoint (init_traces ∅ (resource ∅)) = "http://localhost:4317" /\
  main 4300 "__main__" ∅ = AppRun "0.0.0.0" 5000 /\
  main 4300 "__main__" {[ "APP_HOST_NAME" := "127.0.0.1"; "APP_PORT" := "8080" ]}
  = AppRun "127.0.0.1" 8080.
Proof.
  pose proof (configuration_defaults 4300 ∅)
    as (Hname & _ & Hendpoint & _ & host & port & Hmain & Hhost & _ & Hport & _).
  pose proof (configuration_defaults 4300 {[ "APP_SERVICE_NAME" := "dice" ]})
    as (_ & Hset & _).
  pose proof (configuration_defaults 4300
              {[ "APP_HOST_NAME" := "127.0.0.1"; "APP_PORT" := "8080" ]})
    as (_ & _ & _ & _ & host' & port' & Hmain' & _ & Hhost' & _ & Hport').
  split; [apply Hname; reflexivity|].
  split; [apply (Hset "dice"); [reflexivity|discriminate]|].
  split; [apply Hendpoint; reflexivity|].
  split.
  - rewrite Hmain, (Hhost eq_refl), (Hport eq_refl). reflexivity.
  - rewrite Hmain', (Hhost' "127.0.0.1" eq_refl), (Hport' "8080" eq_refl).
    vm_compute. reflexivity.
Defined.

Example service_name_empty :
  resource_attributes {[ "APP_SERVICE_NAME" := "" ]} !! SERVICE_NAME = Some "" /\
  service_name (resource {[ "APP_SERVICE_NAME" := "" ]}) = UnknownService.
Proof. vm_compute. split; reflexivity. Qed.

Example port_after_separator :
  main 4300 "__main__" {[ "APP_PORT" := String "028" "8080" ]}
  = Raised ValueError /\
  main 4300 "__main__" {[ "APP_PORT" := " 8080
" ]} = AppRun "0.0.0.0" 8080.
Proof. vm_compute. split; reflexivity. Qed.

(** ** Log records *)

Lemma string_app_empty (s : string) : s +:+ "" = s.
Proof.
  induction s as [|c s IH]; [reflexivity|].
  change (String c s +:+ "") with (String c (s +:+ "")). now rewrite IH.
Qed.

Lemma handle_without_span service name lvl filename lineno msg asctime :
  Logging.handle Logging.init_logs asctime
    (Logging.correlate None service
       (Logging.LogRecord name lvl filename lineno msg))
  = let line := asctime +:+ " " +:+ Logging.levelname lvl +:+ " [" +:+ name
                +:+ "] [" +:+ filename +:+ ":" +:+ Py.str lineno
                +:+ "] [trace_id=0 span_id=0 resource.service.name="
                +:+ service +:+ " trace_sampled=False] - " +:+ msg +:+ "" in
    [ ("ext://flask.logging.wsgi_errors_stream", inr line);
      ("log/flask.log", inr line) ].
Proof. vm_compute. reflexivity. Qed.

(** C9.  A record made while no span is active gets the sentinel: trace id
    and span id made of zeros only, the sampling flag false, and the service
    name; none of the four is missing, and the format of [init_logs] turns
    the record into one line for each of the two sinks, with no [KeyError]. *)
Theorem log_without_span service name lvl filename lineno msg asctime :
  let r := Logging.correlate None service
             (Logging.LogRecord name lvl filename lineno msg) in
  let line := asctime +:+ " " +:+ Logging.levelname lvl +:+ " [" +:+ name
              +:+ "] [" +:+ filename +:+ ":" +:+ Py.str lineno
              +:+ "] [trace_id=0 span_id=0 resource.service.name=" +:+ service
              +:+ " trace_sampled=False] - " +:+ msg in
  (exists trace span,
     r !! "otelTraceID" = Some (Logging.AStr trace) /\
     r !! "otelSpanID" = Some (Logging.AStr span) /\
     Logging.all_zero trace = true /\ Logging.all_zero span = true /\
     trace = Logging.trace_id Logging.absent /\
     span = Logging.span_id Logging.absent) /\
  r !! "otelTraceSampled" = Some (Logging.ABool false) /\
  r !! "otelServiceName" = Some (Logging.AStr service) /\
  Logging.handle Logging.init_logs asctime r
  = [ ("ext://flask.logging.wsgi_errors_stream", inr line);
      ("log/flask.log", inr line) ].
Proof.
  cbv zeta. split.
  { exists "0", "0". repeat split. }
  split; [reflexivity|]. split; [reflexivity|].
  rewrite handle_without_span. cbv zeta. now rewrite string_app_empty.
Qed.

Example log_without_correlator :
  Logging.handle Logging.init_logs "2024-05-01 10:00:00,000"
    (Logging.LogRecord "root" INFO "app.py" 48 "hello")
  = [ ("ext://flask.logging.wsgi_errors_stream", inl ValueError);
      ("log/flask.log", inl ValueError) ].
Proof. vm_compute. reflexivity. Qed.

(** ** More on the handler *)

(** One request, event by event: [r1] is the dice, [r2] the result of the
    important job. *)
Lemma roll_dice_trace w :
  journal (snd (roll_dice w))
  = journal w ++
    let r1 := 1 + draw 0 w in
    let r2 := 1 + draw 1 w in
    [ Log INFO "roll_dice: Received a request on /rolldice.";
      CounterAdd "request_counter" 1;
      Log INFO "do_roll: Starting the function execution.";
      SpanStart "do_roll";
      Randint 1 7 r1;
      Log DEBUG ("do_roll: Dice roll resulted in value " +:+ Py.str r1 +:+ ".");
      SetAttribute (Some "do_roll") "roll.value" r1;
      AddEvent (Some "do_roll") "Dice roll span event.";
      Log INFO "do_roll: Function execution completed.";
      SpanEnd "do_roll";
      Log INFO "do_important_job: Starting an important job.";
      SpanStart "do_important_job";
      Randint 1 10000 r2;
      SetAttribute (Some "do_important_job") "important_job.result" r2;
      AddEvent (Some "do_important_job")
        ("Important job completed with result " +:+ Py.str r2 +:+ ".");
      Log DEBUG
        ("do_important_job: Important job result: " +:+ Py.str r2 +:+ ".");
      SpanEnd "do_important_job";
      Log INFO "do_important_job: Function execution completed.";
      if (r1 <? 0) || (r1 >? 6) then
        Log ERROR
          ("roll_dice: Invalid dice value received: " +:+ Py.str r1 +:+ "!")
      else
        Log INFO
          ("roll_dice: Successfully completed with result: "
             +:+ Py.str r1 +:+ ".") ].
Proof.
  destruct w as [f t a [|k1 [|k2 tp]] j]; run_handler; cbv [draw nth tape];
    match goal with
    | |- context [(?r <? 0) || (?r >? 6)] => destruct ((r <? 0) || (r >? 6))
    end;
    rewrite <- !app_assoc; reflexivity.
Qed.

Lemma roll_dice_new_events w :
  new_events roll_dice w
  = drop (length (journal w)) (journal (snd (roll_dice w))).
Proof. reflexivity. Qed.

Lemma next_draw_draw w : next_draw w = draw 0 w.
Proof. unfold next_draw, draw. now destruct (tape w). Qed.

Lemma do_roll_trace w :
  journal (snd (do_roll w))
  = journal w ++
    let res := 1 + draw 0 w in
    [ Log INFO "do_roll: Starting the function execution.";
      SpanStart "do_roll";
      Randint 1 7 res;
      Log DEBUG ("do_roll: Dice roll resulted in value " +:+ Py.str res +:+ ".");
      SetAttribute (Some "do_roll") "roll.value" res;
      AddEvent (Some "do_roll") "Dice roll span event.";
      Log INFO "do_roll: Function execution completed.";
      SpanEnd "do_roll" ].
Proof.
  destruct w as [f t a [|k1 tp] j]; run_handler; cbv [draw nth tape];
    rewrite <- !app_assoc; reflexivity.
Qed.

Lemma roll_dice_tape w : tape (snd (roll_dice w)) = drop 2 (tape w).
Proof.
  destruct w as [f t a [|k1 [|k2 tp]] j]; run_handler;
    match goal with
    | |- context [(?r <? 0) || (?r >? 6)] => destruct ((r <? 0) || (r >? 6))
    end; reflexivity.
Qed.

(** X1.  What a request leaves alone: the stack of active spans is as
    before, no counter other than the request counter moves, exactly two
    draws are taken from the tape, and the journal is extended, never
    rewritten. *)
Theorem roll_dice_frame w :
  let w' := snd (roll_dice w) in
  active w' = active w /\
  tape w' = drop 2 (tape w) /\
  (forall name, name <> "request_counter" ->
   totals w' !! name = totals w !! name) /\
  take (length (journal w)) (journal w') = journal w.
Proof.
  cbv zeta.
  split; [|split; [exact (roll_dice_tape w)|split]].
  - destruct w as [f t a [|k1 [|k2 tp]] j]; run_handler;
      match goal with
      | |- context [(?r <? 0) || (?r >? 6)] => destruct ((r <? 0) || (r >? 6))
      end; reflexivity.
  - intros name Hname. rewrite roll_dice_totals.
    now rewrite lookup_insert_ne.
  - rewrite roll_dice_trace. apply take_app_length.
Qed.

(** X2.  On both ways out of the handler the spans are closed in the order
    they were opened: [do_roll] is entered and left, then
    [do_important_job] is entered and left, and nothing stays open. *)
Theorem roll_dice_spans_closed w :
  spans_nest [] (new_events roll_dice w) = true /\
  List.filter is_span_boundary (new_events roll_dice w)
  = [ SpanStart "do_roll"; SpanEnd "do_roll";
      SpanStart "do_important_job"; SpanEnd "do_important_job" ].
Proof.
  unfold new_events. rewrite roll_dice_trace, drop_app_length. cbv zeta.
  destruct ((1 + draw 0 w <? 0) || (1 + draw 0 w >? 6)); split; reflexivity.
Qed.

(** X3.  [do_roll] writes on the span it has just entered, whatever spans
    were active around it: the attribute [roll.value] holds the value it
    returns, the span event follows, and on return the span that was current
    before is current again. *)
Theorem do_roll_writes_own_span w :
  let res := fst (do_roll w) in
  List.filter is_span_write (new_events do_roll w)
  = [ SetAttribute (Some "do_roll") "roll.value" res;
      AddEvent (Some "do_roll") "Dice roll span event." ] /\
  active (snd (do_roll w)) = active w /\
  spans_nest [] (new_events do_roll w) = true.
Proof.
  cbv zeta. unfold new_events.
  rewrite do_roll_trace, drop_app_length, do_roll_result, next_draw_draw.
  split; [reflexivity|]. split; [|reflexivity].
  destruct w as [f t a [|k1 tp] j]; reflexivity.
Qed.

(** X4.  The handler logs at error level exactly when it answers 500, and
    then that line, which names the value, is the last thing it does. *)
Theorem roll_dice_error_logged w :
  (existsb is_error_log (new_events roll_dice w) = true
   <-> status_code (fst (roll_dice w)) = 500) /\
  (status_code (fst (roll_dice w)) = 500 ->
   last (journal (snd (roll_dice w)))
   = Some (Log ERROR ("roll_dice: Invalid dice value received: "
                        +:+ Py.str (fst (do_roll w)) +:+ "!"))).
Proof.
  unfold new_events.
  rewrite roll_dice_trace, drop_app_length, roll_dice_result, do_roll_result.
  rewrite next_draw_draw. cbv zeta.
  destruct ((1 + draw 0 w <? 0) || (1 + draw 0 w >? 6)); simpl.
  - split; [split; reflexivity|]. intros _.
    rewrite last_app. reflexivity.
  - split; [split; discriminate|]. discriminate.
Qed.

(** X5.  The answer is a function of the dice alone: two processes whose
    next draw is the same answer alike, whatever the important job draws
    and whatever else differs between them. *)
Theorem roll_dice_answer_from_dice w w' :
  draw 0 w = draw 0 w' ->
  fst (roll_dice w) = fst (roll_dice w').
Proof.
  intros H. rewrite !roll_dice_result, !next_draw_draw. now rewrite H.
Qed.

Lemma roll_dice_answer_from_dice_witness :
  fst (roll_dice (world_rolling 2 41))
  = fst (roll_dice (set_journal [Log INFO "before"] (world_rolling 2 9000))).
Proof.
  apply (roll_dice_answer_from_dice (world_rolling 2 41)
           (set_journal [Log INFO "before"] (world_rolling 2 9000))).
  reflexivity.
Defined.

Lemma serve_step n w :
  serve (S n) w
  = (fst (roll_dice w) :: fst (serve n (snd (roll_dice w))),
     snd (serve n (snd (roll_dice w)))).
Proof.
  simpl. unfold bind, ret.
  destruct (roll_dice w) as [rv w1]. simpl.
  now destruct (serve n w1) as [rest w2].
Qed.

Lemma serve_journal n w :
  exists events,
    journal (snd (serve n w)) = journal w ++ events /\
    length (List.filter is_add events) = n.
Proof.
  revert w. induction n as [|n IH]; intros w.
  - exists []. split; [now rewrite app_nil_r|reflexivity].
  - rewrite serve_step. simpl.
    destruct (IH (snd (roll_dice w))) as (events & He & Hcount).
    destruct (roll_dice_journal w) as (after & Hj & Hafter).
    match type of Hj with
    | _ = _ ++ ?first => exists (first ++ events)
    end.
    split; [now rewrite He, Hj, <- app_assoc|].
    rewrite List.filter_app. cbn [app List.filter is_add].
    rewrite (no_add_filter after Hafter).
    cbn [app length]. now rewrite Hcount.
Qed.

(** X6.  [n] requests in a row give [n] answers, make [n] calls of
    [request_counter.add(1)], raise the running total by [n] and take [2 n]
    draws from the tape. *)
Theorem serve_counts n w :
  let w' := snd (serve n w) in
  length (fst (serve n w)) = n /\
  length (List.filter is_add (new_events (serve n) w)) = n /\
  default 0 (totals w' !! "request_counter")
  = default 0 (totals w !! "request_counter") + Z.of_nat n /\
  tape w' = drop (2 * n) (tape w).
Proof.
  cbv zeta. split; [|split; [|split]].
  - revert w. induction n as [|n IH]; intros w; [reflexivity|].
    rewrite serve_step. simpl. now rewrite IH.
  - unfold new_events.
    destruct (serve_journal n w) as (events & -> & Hcount).
    now rewrite drop_app_length.
  - revert w. induction n as [|n IH]; intros w.
    + simpl. lia.
    + rewrite serve_step. cbn [snd]. rewrite IH, roll_dice_totals.
      rewrite lookup_insert_eq. simpl. lia.
  - revert w. induction n as [|n IH]; intros w; [reflexivity|].
    rewrite serve_step. cbn [snd]. rewrite IH, roll_dice_tape.
    rewrite drop_drop. f_equal. lia.
Qed.

(** X7.  The body of a 200 answer is one character, a decimal digit, and
    [int] reads it back as the dice result. *)
Theorem roll_dice_body_reads_back digits w :
  status_code (fst (roll_dice w)) = 200 ->
  String.length (response_body (fst (roll_dice w))) = 1%nat /\
  Py.int digits (response_body (fst (roll_dice w))) = inr (fst (do_roll w)).
Proof.
  rewrite roll_dice_result, do_roll_result. cbv zeta.
  destruct ((1 + next_draw w <? 0) || (1 + next_draw w >? 6)) eqn:Hcheck;
    simpl; [discriminate|]. intros _.
  apply orb_false_iff in Hcheck as [H1 H2].
  apply Z.ltb_ge in H1. rewrite Z.gtb_ltb in H2. apply Z.ltb_ge in H2.
  assert (exists d, (d <= 6)%nat /\ 1 + next_draw w = Z.of_nat d)
    as (d & Hd & ->).
  { exists (Z.to_nat (1 + next_draw w)). lia. }
  assert (Py.too_long digits 1 = false) as Hlimit.
  { unfold Py.too_long. destruct digits as [|[|m]]; reflexivity. }
  do 7 (destruct d as [|d];
        [ split; [reflexivity|];
          unfold Py.int, Py.unsigned; simpl; now rewrite Hlimit | ]).
  lia.
Qed.

Lemma roll_dice_body_reads_back_witness :
  String.length (response_body (fst (roll_dice (world_rolling 2 41)))) = 1%nat /\
  Py.int 4300 (response_body (fst (roll_dice (world_rolling 2 41)))) = inr 3.
Proof.
  apply (roll_dice_body_reads_back 4300 (world_rolling 2 41)).
  vm_compute. reflexivity.
Defined.

(** ** More on the sampler *)

Lemma unsigned_raises_ValueError digits s e :
  Py.unsigned digits s = inl e -> e = ValueError.
Proof.
  unfold Py.unsigned, raise.
  destruct (Py.digits true 0 0 s) as [[v n]|]; [|congruence].
  destruct (Py.too_long digits n); congruence.
Qed.

Lemma int_raises_ValueError digits s e :
  Py.int digits s = inl e -> e = ValueError.
Proof.
  unfold Py.int.
  destruct (Py.int_strip s) as [|c s']; [apply unsigned_raises_ValueError|].
  destruct c as [[] [] [] [] [] [] [] []];
    try apply unsigned_raises_ValueError.
  unfold exn_bind.
  destruct (Py.unsigned digits s') as [e'|v] eqn:E; [|discriminate].
  intros [= <-]. exact (unsigned_raises_ValueError _ _ _ E).
Qed.

Lemma startswith_cpu_inv line :
  Py.startswith line "cpu" = true ->
  exists rest, line = String "c" (String "p" (String "u" rest)).
Proof.
  unfold Py.startswith.
  destruct line as [|a [|b [|c rest]]]; cbn [String.prefix]; intros H;
    repeat match type of H with
           | context [ascii_dec ?x ?y] =>
               destruct (ascii_dec x y); cbn [String.prefix] in H
           end;
    try discriminate.
  subst. now exists rest.
Qed.

Lemma split_from_nonempty s tok : tok <> "" -> Py.split_from tok s <> [].
Proof.
  revert tok. induction s as [|c s IH]; intros tok Htok.
  - destruct tok; [congruence|discriminate].
  - simpl. destruct (Py.isspace c).
    + destruct tok; [congruence|discriminate].
    + now apply IH.
Qed.

(** X8.  The first line of the source is read and dropped without being
    looked at: two sources that agree from the second line on give the same
    result, and a source of at most one line gives the empty list. *)
Theorem sampler_skips_first_line digits options w w' text text' :
  fs w !! "/proc/stat" = Some (inr text) ->
  fs w' !! "/proc/stat" = Some (inr text') ->
  tl (Py.readlines text) = tl (Py.readlines text') ->
  fst (cpu_time_callback digits options w)
  = fst (cpu_time_callback digits options w') /\
  (tl (Py.readlines text) = [] ->
   fst (cpu_time_callback digits options w) = inr []).
Proof.
  intros Hw Hw' Htl. unfold cpu_time_callback, open. simpl.
  rewrite Hw, Hw'. simpl.
  destruct (Py.readlines text) as [|first lines];
    destruct (Py.readlines text') as [|first' lines'];
    simpl in *; subst; split; try reflexivity; now intros ->.
Qed.

Lemma sampler_skips_first_line_witness :
  fst (cpu_time_callback 4300 options0 (world_of stat_three_lines))
  = fst (cpu_time_callback 4300 options0 (world_of "not a cpu line at all
cpu0 10 20
cpu1 30 40")).
Proof.
  refine (proj1 (sampler_skips_first_line 4300 options0
    (world_of stat_three_lines) (world_of "not a cpu line at all
cpu0 10 20
cpu1 30 40") stat_three_lines "not a cpu line at all
cpu0 10 20
cpu1 30 40" _ _ _)); vm_compute; reflexivity.
Defined.

(** X9.  Which exception a bad row raises.  When the rows before it are
    well formed, a row that starts with [cpu] always has a first token, so
    the unpacking cannot fail; a missing tick field raises [IndexError], a
    tick field that is not an integer raises [ValueError], and the first
    field is looked at before the second. *)
Theorem sampler_exception digits options w text first pre rows bad post :
  fs w !! "/proc/stat" = Some (inr text) ->
  Py.readlines text = first :: pre ++ bad :: post ->
  Forall2 (parses digits) pre rows ->
  Py.startswith bad "cpu" = true ->
  Py.split bad <> [] /\
  (forall cpu, Py.split bad = [cpu] ->
   fst (cpu_time_callback digits options w) = inl IndexError) /\
  (forall cpu s0 more e,
   Py.split bad = cpu :: s0 :: more ->
   Py.int digits s0 = inl e ->
   fst (cpu_time_callback digits options w) = inl ValueError) /\
  (forall cpu s0 t0,
   Py.split bad = [cpu; s0] ->
   Py.int digits s0 = inr t0 ->
   fst (cpu_time_callback digits options w) = inl IndexError) /\
  (forall cpu s0 s1 more t0 e,
   Py.split bad = cpu :: s0 :: s1 :: more ->
   Py.int digits s0 = inr t0 ->
   Py.int digits s1 = inl e ->
   fst (cpu_time_callback digits options w) = inl ValueError).
Proof.
  intros Hfs Hlines Hpre Hbad.
  rewrite (sampler_readable _ _ _ _ _ _ Hfs Hlines). clear Hfs Hlines.
  assert (forall acc,
    cpu_time_loop digits (pre ++ bad :: post) acc
    = cpu_time_loop digits (bad :: post) (acc ++ rows ≫= observations_of_row))
    as ->.
  { induction Hpre as [|l r ls rs Hr _ IH]; intros acc.
    - simpl. now rewrite app_nil_r.
    - change ((l :: ls) ++ bad :: post) with (l :: (ls ++ bad :: post)).
      rewrite (cpu_loop_row _ _ _ _ _ Hr), IH.
      now rewrite <- app_assoc. }
  simpl. rewrite Hbad. simpl.
  split; [|split; [|split; [|split]]].
  - destruct (startswith_cpu_inv bad Hbad) as [rest ->].
    unfold Py.split. simpl. now apply split_from_nonempty.
  - intros cpu ->. reflexivity.
  - intros cpu s0 more e -> He. simpl. rewrite He. simpl.
    now rewrite (int_raises_ValueError _ _ _ He).
  - intros cpu s0 t0 -> H0. simpl. rewrite H0. reflexivity.
  - intros cpu s0 s1 more t0 e -> H0 He. simpl. rewrite H0. simpl.
    rewrite He. simpl. now rewrite (int_raises_ValueError _ _ _ He).
Qed.

Lemma sampler_exception_witness :
  fst (cpu_time_callback 4300 options0 (world_of stat_short_row))
  = inl IndexError.
Proof.
  refine (proj1 (proj2 (proj2 (proj2 (sampler_exception 4300 options0
    (world_of stat_short_row) stat_short_row
    (hd "" (Py.readlines stat_short_row))
    (take 1 (tl (Py.readlines stat_short_row)))
    [mkRow "cpu0" 10 20 []]
    (default "" (Py.readlines stat_short_row !! 2%nat))
    [] _ _ _ _)))) "cpu1" "30" 30 _ _).
  - vm_compute; reflexivity.
  - vm_compute; reflexivity.
  - apply Forall2_cons_2; [ | apply Forall2_nil_2 ].
    split; [ vm_compute; reflexivity | ].
    exists "10", "20". repeat split; vm_compute; reflexivity.
  - vm_compute; reflexivity.
  - vm_compute; reflexivity.
  - vm_compute; reflexivity.
Defined.

Lemma string_app_assoc (s1 s2 s3 : string) :
  (s1 +:+ s2) +:+ s3 = s1 +:+ (s2 +:+ s3).
Proof.
  induction s1 as [|c s1 IH]; [reflexivity|].
  change (String c (s1 +:+ s2) +:+ s3 = String c (s1 +:+ s2 +:+ s3)).
  change (String c ((s1 +:+ s2) +:+ s3) = String c (s1 +:+ s2 +:+ s3)).
  now rewrite IH.
Qed.

Lemma rev_app_spec (s1 s2 : string) :
  String.rev_app s1 s2 = String.rev s1 +:+ s2.
Proof.
  revert s2. induction s1 as [|c s1 IH]; intros s2; [reflexivity|].
  unfold String.rev. cbn [String.rev_app].
  rewrite (IH (String c s2)), (IH (String c "")).
  now rewrite string_app_assoc.
Qed.

Lemma split_from_head s tok :
  tok <> "" ->
  exists tail more,
    Py.split_from tok s = (String.rev tok +:+ tail) :: more.
Proof.
  revert tok. induction s as [|c s IH]; intros tok Htok.
  - exists "", []. simpl. rewrite string_app_empty.
    destruct tok; [congruence|reflexivity].
  - simpl. destruct (Py.isspace c).
    + exists "", (Py.split_from "" s). rewrite string_app_empty.
      destruct tok; [congruence|reflexivity].
    + destruct (IH (String c tok)) as (tail & more & ->); [discriminate|].
      exists (String c tail), more. f_equal.
      unfold String.rev at 1. cbn [String.rev_app].
      rewrite rev_app_spec. now rewrite string_app_assoc.
Qed.

Lemma cpu_token line cpu states :
  Py.startswith line "cpu" = true ->
  Py.split line = cpu :: states ->
  Py.startswith cpu "cpu" = true.
Proof.
  intros Hline Hsplit.
  destruct (startswith_cpu_inv line Hline) as [rest ->].
  unfold Py.split in Hsplit. simpl in Hsplit.
  destruct (split_from_head rest "upc") as (tail & more & E); [discriminate|].
  rewrite E in Hsplit. injection Hsplit as <- _.
  unfold Py.startswith. destruct tail; vm_compute; reflexivity.
Qed.

(** X10.  Every Observation a call returns carries exactly the two labels
    [cpu] and [state]; the state is [user] or [system], and the cpu label is
    a token that starts with [cpu]. *)
Theorem sampler_labels digits options w obs :
  fst (cpu_time_callback digits options w) = inr obs ->
  Forall (fun o =>
    exists cpu state,
      attributes o = {[ "cpu" := cpu; "state" := state ]} /\
      (state = "user" \/ state = "system") /\
      Py.startswith cpu "cpu" = true) obs.
Proof.
  unfold cpu_time_callback. simpl.
  destruct (open "/proc/stat" w) as [e|procstat]; simpl; [discriminate|].
  destruct (Py.readline procstat) as [skipped lines].
  intros Hobs. apply cpu_loop_inv in Hobs as (rows & Hrows & ->). simpl.
  induction Hrows as [|l r ls rs Hr _ IH]; [constructor|].
  change ((r :: rs) ≫= observations_of_row)
    with (observations_of_row r ++ rs ≫= observations_of_row).
  destruct Hr as [Hcpu (s0 & s1 & Hsplit & _)].
  pose proof (cpu_token _ _ _ Hcpu Hsplit) as Htoken.
  apply Forall_app. split; [|exact IH].
  repeat constructor; eexists _, _; (split; [reflexivity|]);
    (split; [|exact Htoken]); [now left|now right].
Qed.

Lemma sampler_labels_witness :
  Forall (fun o =>
    exists cpu state,
      attributes o = {[ "cpu" := cpu; "state" := state ]} /\
      (state = "user" \/ state = "system") /\
      Py.startswith cpu "cpu" = true)
    [ mkObservation 5 {[ "cpu" := "cpu0"; "state" := "user" ]};
      mkObservation 6 {[ "cpu" := "cpu0"; "state" := "system" ]} ].
Proof.
  apply (sampler_labels 4300 options0 (world_of stat_500_600)).
  vm_compute. reflexivity.
Defined.

(** ** More on the configuration *)

(** X11.  Up to the call of [app.run], the main block can fail only while
    it reads the port: it raises exactly when [APP_PORT] is set to something
    [int] refuses, and the exception is [ValueError]; a port that parses is
    handed to [app.run] as it is, no range being checked.  A module that is
    imported reads neither the host nor the port. *)
Theorem main_port_error digits (environ : gmap string string) :
  (forall e, main digits "__main__" environ = Raised e ->
   e = ValueError /\
   exists v, environ !! "APP_PORT" = Some v /\ Py.int digits v = inl e) /\
  (forall v e, environ !! "APP_PORT" = Some v -> Py.int digits v = inl e ->
   main digits "__main__" environ = Raised ValueError) /\
  (forall v p, environ !! "APP_PORT" = Some v -> Py.int digits v = inr p ->
   exists host, main digits "__main__" environ = AppRun host p) /\
  (forall name, name <> "__main__" -> main digits name environ = Imported).
Proof.
  unfold main, environ_get, environ_get_str, int_of. simpl.
  split; [|split; [|split]].
  - intros e. destruct (environ !! "APP_PORT") as [v|] eqn:Hport.
    + destruct (Py.int digits v) as [e'|p] eqn:Hint; [|discriminate].
      intros [= <-]. split; [exact (int_raises_ValueError _ _ _ Hint)|].
      now exists v.
    + discriminate.
  - intros v e -> Hint. rewrite Hint.
    now rewrite (int_raises_ValueError _ _ _ Hint).
  - intros v p -> Hint. rewrite Hint. now eexists.
  - intros name Hname.
    destruct (String.eqb name "__main__") eqn:E; [|reflexivity].
    apply String.eqb_eq in E. contradiction.
Qed.

Lemma main_port_error_witness :
  main 4300 "__main__" {[ "APP_PORT" := "http" ]} = Raised ValueError /\
  (exists host,
     main 4300 "__main__" {[ "APP_PORT" := "-1" ]} = AppRun host (-1)) /\
  main 4300 "app" {[ "APP_PORT" := "http" ]} = Imported.
Proof.
  split; [|split].
  - refine (proj1 (proj2 (main_port_error 4300 {[ "APP_PORT" := "http" ]}))
              "http" ValueError _ _); vm_compute; reflexivity.
  - refine (proj1 (proj2 (proj2 (main_port_error 4300 {[ "APP_PORT" := "-1" ]})))
              "-1" (-1) _ _); vm_compute; reflexivity.
  - refine (proj2 (proj2 (proj2 (main_port_error 4300 {[ "APP_PORT" := "http" ]})))
              "app" _). discriminate.
Defined.

(** ** More on log records *)

(** X13.  The logging configuration is closed: both handlers of the root
    logger are defined, both name a formatter that is defined, and it is the
    same one, so the console and the file receive the same line, or fail
    with the same exception, for every record. *)
Theorem sinks_agree asctime (r : gmap string Logging.attr) :
  exists fmt,
    Logging.formatters Logging.init_logs !! "default" = Some fmt /\
    Logging.handle Logging.init_logs asctime r
    = [ ("ext://flask.logging.wsgi_errors_stream",
         Logging.Formatter_format fmt asctime r);
        ("log/flask.log", Logging.Formatter_format fmt asctime r) ].
Proof.
  eexists. split; [vm_compute; reflexivity|].
  unfold Logging.handle, Logging.handle_one.
  cbn [Logging.root_handlers Logging.init_logs omap list_omap].
  assert (Logging.handlers Logging.init_logs !! "wsgi"
          = Some {| Logging.class := "logging.StreamHandler";
                    Logging.target := "ext://flask.logging.wsgi_errors_stream";
                    Logging.formatter := "default" |}) as ->
    by (vm_compute; reflexivity).
  assert (Logging.handlers Logging.init_logs !! "file"
          = Some {| Logging.class := "logging.FileHandler";
                    Logging.target := "log/flask.log";
                    Logging.formatter := "default" |}) as ->
    by (vm_compute; reflexivity).
  cbn [Logging.formatter Logging.target].
  match goal with
  | |- context [Logging.formatters Logging.init_logs !! "default"] =>
      assert (Logging.formatters Logging.init_logs !! "default"
              = Some (default "" (Logging.formatters Logging.init_logs
                                    !! "default"))) as ->
        by (vm_compute; reflexivity)
  end.
  reflexivity.
Qed.

(** X14.  The format of [init_logs] needs the attributes that the logging
    instrumentation adds: a record as [LogRecord] makes it, whatever its
    fields, cannot be formatted, and for both sinks the formatter raises
    [ValueError]. *)
Theorem format_needs_instrumentation name lvl filename lineno msg asctime :
  Logging.handle Logging.init_logs asctime
    (Logging.LogRecord name lvl filename lineno msg)
  = [ ("ext://flask.logging.wsgi_errors_stream", inl ValueError);
      ("log/flask.log", inl ValueError) ].
Proof. vm_compute. reflexivity. Qed.

Lemma format_renders_raw name lvl filename lineno msg asctime
    (trace span service flag : Logging.attr) :
  Logging.handle Logging.init_logs asctime
    (<["otelTraceID" := trace]>
       (<["otelSpanID" := span]>
          (<["otelServiceName" := service]>
             (<["otelTraceSampled" := flag]>
                (Logging.LogRecord name lvl filename lineno msg)))))
  = let line :=
      asctime +:+ " " +:+ Logging.levelname lvl +:+ " [" +:+ name
      +:+ "] [" +:+ filename +:+ ":" +:+ Py.str lineno
      +:+ "] [trace_id=" +:+ Logging.conv_s trace
      +:+ " span_id=" +:+ Logging.conv_s span
      +:+ " resource.service.name=" +:+ Logging.conv_s service
      +:+ " trace_sampled=" +:+ Logging.conv_s flag
      +:+ "] - " +:+ msg +:+ "" in
    [ ("ext://flask.logging.wsgi_errors_stream", inr line);
      ("log/flask.log", inr line) ].
Proof. vm_compute. reflexivity. Qed.

(** X15.  With the four attributes present, whatever they hold, a record
    is written as one line: time, level, logger, file and line number, then
    the trace id, the span id, the service name and the sampling flag as
    [%s] shows them, then the message. *)
Theorem format_renders name lvl filename lineno msg asctime
    (trace span service flag : Logging.attr) :
  let r :=
    <["otelTraceID" := trace]>
      (<["otelSpanID" := span]>
         (<["otelServiceName" := service]>
            (<["otelTraceSampled" := flag]>
               (Logging.LogRecord name lvl filename lineno msg)))) in
  let line :=
    asctime +:+ " " +:+ Logging.levelname lvl +:+ " [" +:+ name
    +:+ "] [" +:+ filename +:+ ":" +:+ Py.str lineno
    +:+ "] [trace_id=" +:+ Logging.conv_s trace
    +:+ " span_id=" +:+ Logging.conv_s span
    +:+ " resource.service.name=" +:+ Logging.conv_s service
    +:+ " trace_sampled=" +:+ Logging.conv_s flag
    +:+ "] - " +:+ msg in
  Logging.handle Logging.init_logs asctime r
  = [ ("ext://flask.logging.wsgi_errors_stream", inr line);
      ("log/flask.log", inr line) ].
Proof.
  cbv zeta. rewrite format_renders_raw. cbv zeta.
  now rewrite string_app_empty.
Qed.

(** ** The important job and the exceptions of the sampler *)

Lemma do_important_job_trace w :
  journal (snd (do_important_job w))
  = journal w ++
    let result := 1 + draw 0 w in
    [ Log INFO "do_important_job: Starting an important job.";
      SpanStart "do_important_job";
      Randint 1 10000 result;
      SetAttribute (Some "do_important_job") "important_job.result" result;
      AddEvent (Some "do_important_job")
        ("Important job completed with result " +:+ Py.str result +:+ ".");
      Log DEBUG
        ("do_important_job: Important job result: "
           +:+ Py.str result +:+ ".");
      SpanEnd "do_important_job";
      Log INFO "do_important_job: Function execution completed." ].
Proof.
  destruct w as [f t a [|k1 tp] j]; run_handler; cbv [draw nth tape];
    rewrite <- !app_assoc; reflexivity.
Qed.

(** X16.  The important job keeps its result to itself: a number between 1
    and 10000 that goes on its own span, as an attribute and in the text of
    a span event; the job takes one draw, calls no counter, leaves the
    running totals and the stack of active spans alone, and closes the span
    it opened. *)
Theorem do_important_job_contained w k draws :
  tape w = k :: draws ->
  0 <= k < 10000 ->
  let w' := snd (do_important_job w) in
  (exists result,
     1 <= result <= 10000 /\
     List.filter is_span_write (new_events do_important_job w)
     = [ SetAttribute (Some "do_important_job") "important_job.result" result;
         AddEvent (Some "do_important_job")
           ("Important job completed with result "
              +:+ Py.str result +:+ ".") ]) /\
  spans_nest [] (new_events do_important_job w) = true /\
  List.filter is_add (new_events do_important_job w) = [] /\
  totals w' = totals w /\
  active w' = active w /\
  tape w' = draws.
Proof.
  intros Htape Hk. cbv zeta. unfold new_events.
  rewrite do_important_job_trace, drop_app_length. cbv zeta.
  assert (draw 0 w = k) as -> by (unfold draw; now rewrite Htape).
  split; [exists (1 + k); split; [lia|reflexivity]|].
  split; [reflexivity|]. split; [reflexivity|].
  destruct w as [f t a tp j]. simpl in Htape. subst tp.
  repeat split.
Qed.

Lemma do_important_job_contained_witness :
  totals (snd (do_important_job (world_rolling 4999 0)))
  = totals (world_rolling 4999 0) /\
  tape (snd (do_important_job (world_rolling 4999 0))) = [0].
Proof.
  destruct (do_important_job_contained (world_rolling 4999 0) 4999 [0] eq_refl)
    as (_ & _ & _ & Htotals & _ & Htape); [lia|].
  split; assumption.
Defined.

Lemma cpu_loop_raises digits lines acc e :
  cpu_time_loop digits lines acc = inl e ->
  e = ValueError \/ e = IndexError.
Proof.
  revert acc. induction lines as [|line lines IH]; intros acc H;
    [discriminate|].
  simpl in H. destruct (Py.startswith line "cpu"); simpl in H;
    [|discriminate].
  destruct (Py.split line) as [|cpu states]; simpl in H;
    [left; congruence|].
  destruct states as [|s0 states]; simpl in H; [right; congruence|].
  destruct (Py.int digits s0) as [e0|t0] eqn:H0; simpl in H.
  { left. injection H as <-. exact (int_raises_ValueError _ _ _ H0). }
  destruct states as [|s1 extra]; simpl in H; [right; congruence|].
  destruct (Py.int digits s1) as [e1|t1] eqn:H1; simpl in H.
  { left. injection H as <-. exact (int_raises_ValueError _ _ _ H1). }
  exact (IH _ H).
Qed.

(** X17.  What the callback can raise: the exception of a source that
    cannot be opened or read, [OSError] when the source is missing, and on a
    source that was read nothing but [ValueError] and [IndexError]. *)
Theorem sampler_raises_only digits options w e :
  fst (cpu_time_callback digits options w) = inl e ->
  (fs w !! "/proc/stat" = None /\ e = OSError) \/
  fs w !! "/proc/stat" = Some (inl e) \/
  ((exists text, fs w !! "/proc/stat" = Some (inr text)) /\
   (e = ValueError \/ e = IndexError)).
Proof.
  unfold cpu_time_callback, open. simpl.
  destruct (fs w !! "/proc/stat") as [[e'|text]|]; simpl.
  - intros [= <-]. right. now left.
  - destruct (Py.readline (Py.readlines text)) as [skipped lines].
    intros H. right. right. split; [now exists text|].
    exact (cpu_loop_raises _ _ _ _ H).
  - intros [= <-]. now left.
Qed.

Lemma sampler_raises_only_witness :
  (fs (world_of stat_short_row) !! "/proc/stat" = None /\ IndexError = OSError) \/
  fs (world_of stat_short_row) !! "/proc/stat" = Some (inl IndexError) \/
  ((exists text, fs (world_of stat_short_row) !! "/proc/stat" = Some (inr text)) /\
   (IndexError = ValueError \/ IndexError = IndexError)).
Proof.
  apply (sampler_raises_only 4300 options0 (world_of stat_short_row) IndexError).
  vm_compute. reflexivity.
Defined.
